(** * Signal Enhancement Factor scripts: a shallow embedding

    The scripts of this repository compute with numpy/pandas [float64]
    scalars.  The arithmetic they use is captured by the interface
    [Float64] below, and every function of the scripts is embedded once,
    over that interface.  Two instances are given:

    - [npfloat], the idealised instance: real numbers extended with
      [+inf], [-inf] and [nan], with the IEEE 754 rules for the special
      values and no rounding (and no signed zero: [0] stands for [+0]).
      The general theorems are proved at this instance.
    - [PrimFloat.float], binary64 itself, at which the embedded functions
      run on concrete inputs.

    Embedded: [calculate_sef], [validate_sef_framework] and
    [validate_domain_sef] (scripts/validate_sef_framework.py,
    scripts/validate_multi_domain_sef.py); [test_normality_and_log_transform],
    [calculate_sef_parameters] and [calculate_sef_improvement]
    (scripts/apply_sef_to_cms_data.py); [test_normality]
    (data/raw/Scraped Data/Code/validate_clinical_data.py).  What the
    functions print is left out; the scipy tests are parameters; a pandas
    frame is a finite map from column labels to columns. *)

From stdpp Require Import base gmap strings.
From Stdlib Require Import Reals Lra Lia Bool ZArith.
From Stdlib Require PrimFloat.

(** ** The arithmetic interface *)

Class Float64 (F : Type) : Type := {
  fadd : F -> F -> F;
  fsub : F -> F -> F;
  fmul : F -> F -> F;
  fdiv : F -> F -> F;
  fsqrt : F -> F;          (* np.sqrt *)
  fabs : F -> F;           (* abs *)
  fle : F -> F -> bool;    (* <= ; False as soon as one side is nan *)
  flt : F -> F -> bool;    (* <  ; False as soon as one side is nan *)
  feq : F -> F -> bool;    (* == ; False as soon as one side is nan *)
  fisnan : F -> bool;
  finf : F;                (* np.inf *)
  fnan : F;                (* np.nan *)
  fZ : Z -> F;             (* an integer literal or a len() used as a float *)
  fdec : Z -> Z -> F       (* the decimal literal  m / 10^k  *)
}.

Declare Scope f64_scope.
Delimit Scope f64_scope with f64.
Infix "+" := fadd : f64_scope.
Infix "-" := fsub : f64_scope.
Infix "*" := fmul : f64_scope.
Infix "/" := fdiv : f64_scope.
Infix "<=?" := fle : f64_scope.
Infix "<?" := flt : f64_scope.
Infix "=?" := feq : f64_scope.
Notation "x >? y" := (flt y x) (at level 70) : f64_scope.
Notation "x >=? y" := (fle y x) (at level 70) : f64_scope.
Notation "x <>? y" := (negb (feq x y)) (at level 70) : f64_scope.

(** ** The idealised instance *)

Inductive npfloat : Type :=
| Fin (x : R)
| PInf
| NInf
| NaN.

Module Ideal.

Local Open Scope R_scope.

Definition Rleb (x y : R) : bool := if Rle_dec x y then true else false.
Definition Rltb (x y : R) : bool := if Rlt_dec x y then true else false.
Definition Reqb (x y : R) : bool := if Req_dec_T x y then true else false.

Definition neg (a : npfloat) : npfloat :=
  match a with
  | Fin x => Fin (- x)
  | PInf => NInf
  | NInf => PInf
  | NaN => NaN
  end.

Definition add (a b : npfloat) : npfloat :=
  match a, b with
  | NaN, _ | _, NaN => NaN
  | Fin x, Fin y => Fin (x + y)
  | PInf, NInf | NInf, PInf => NaN
  | PInf, _ | _, PInf => PInf
  | NInf, _ | _, NInf => NInf
  end.

Definition sub (a b : npfloat) : npfloat := add a (neg b).

(** The infinity carrying the sign of [x], [nan] when [x] is zero. *)
Definition signed_inf (x : R) : npfloat :=
  if Rltb 0 x then PInf else if Rltb x 0 then NInf else NaN.

Definition mul (a b : npfloat) : npfloat :=
  match a, b with
  | NaN, _ | _, NaN => NaN
  | Fin x, Fin y => Fin (x * y)
  | PInf, Fin x | Fin x, PInf => signed_inf x
  | NInf, Fin x | Fin x, NInf => signed_inf (- x)
  | PInf, PInf | NInf, NInf => PInf
  | PInf, NInf | NInf, PInf => NInf
  end.

(** numpy division: a division by zero does not raise, it yields an
    infinity (or [nan] for [0/0]). *)
Definition div (a b : npfloat) : npfloat :=
  match a, b with
  | NaN, _ | _, NaN => NaN
  | Fin x, Fin y => if Reqb y 0 then signed_inf x else Fin (x / y)
  | Fin _, PInf | Fin _, NInf => Fin 0
  | PInf, Fin y => if Rltb y 0 then NInf else PInf
  | NInf, Fin y => if Rltb y 0 then PInf else NInf
  | PInf, PInf | PInf, NInf | NInf, PInf | NInf, NInf => NaN
  end.

Definition sqrt (a : npfloat) : npfloat :=
  match a with
  | Fin x => if Rltb x 0 then NaN else Fin (sqrt x)
  | PInf => PInf
  | NInf | NaN => NaN
  end.

Definition abs (a : npfloat) : npfloat :=
  match a with
  | Fin x => Fin (Rabs x)
  | PInf | NInf => PInf
  | NaN => NaN
  end.

Definition le (a b : npfloat) : bool :=
  match a, b with
  | NaN, _ | _, NaN => false
  | Fin x, Fin y => Rleb x y
  | NInf, _ | _, PInf => true
  | _, _ => false
  end.

Definition lt (a b : npfloat) : bool :=
  match a, b with
  | NaN, _ | _, NaN => false
  | Fin x, Fin y => Rltb x y
  | PInf, _ | _, NInf => false
  | _, _ => true
  end.

Definition eq (a b : npfloat) : bool :=
  match a, b with
  | Fin x, Fin y => Reqb x y
  | PInf, PInf | NInf, NInf => true
  | _, _ => false
  end.

Definition isnan (a : npfloat) : bool :=
  match a with NaN => true | _ => false end.

Definition dec (m k : Z) : npfloat := Fin (IZR m / IZR (10 ^ k)).

End Ideal.

#[export] Instance npfloat_Float64 : Float64 npfloat := {
  fadd := Ideal.add; fsub := Ideal.sub; fmul := Ideal.mul; fdiv := Ideal.div;
  fsqrt := Ideal.sqrt; fabs := Ideal.abs;
  fle := Ideal.le; flt := Ideal.lt; feq := Ideal.eq; fisnan := Ideal.isnan;
  finf := PInf; fnan := NaN;
  fZ := fun z => Fin (IZR z); fdec := Ideal.dec
}.

(** ** The binary64 instance *)

Module Binary64.

(** Exact below 2^53, which covers every literal and length used here. *)
Fixpoint of_pos (p : positive) : PrimFloat.float :=
  match p with
  | xH => PrimFloat.one
  | xO q => PrimFloat.mul PrimFloat.two (of_pos q)
  | xI q => PrimFloat.add (PrimFloat.mul PrimFloat.two (of_pos q)) PrimFloat.one
  end.

Definition of_Z (z : Z) : PrimFloat.float :=
  match z with
  | Z0 => PrimFloat.zero
  | Zpos p => of_pos p
  | Zneg p => PrimFloat.opp (of_pos p)
  end.

(** [m / 10^k]: correctly rounded for the literals of the scripts, whose
    numerator and power of ten are both exactly representable. *)
Definition dec (m k : Z) : PrimFloat.float := PrimFloat.div (of_Z m) (of_Z (10 ^ k)).

End Binary64.

#[export] Instance binary64_Float64 : Float64 PrimFloat.float := {
  fadd := PrimFloat.add; fsub := PrimFloat.sub; fmul := PrimFloat.mul;
  fdiv := PrimFloat.div; fsqrt := PrimFloat.sqrt; fabs := PrimFloat.abs;
  fle := PrimFloat.leb; flt := PrimFloat.ltb; feq := PrimFloat.eqb;
  fisnan := PrimFloat.is_nan;
  finf := PrimFloat.infinity; fnan := PrimFloat.nan;
  fZ := Binary64.of_Z; fdec := Binary64.dec
}.

(** ** Exceptions and the values a function hands back *)

Inductive exn : Type :=
| KeyError (key : string)    (* a column label that the frame does not have *)
| TypeError                   (* a reduction over a column that is not numeric *)
| ValueError.                 (* a scipy test refusing its sample *)

Inductive result (A : Type) : Type :=
| Return (a : A)
| Raise (e : exn).
Arguments Return {A} a.
Arguments Raise {A} e.

#[export] Instance result_ret : MRet result := fun A a => Return a.
#[export] Instance result_bind : MBind result := fun A B k m =>
  match m with
  | Return a => k a
  | Raise e => Raise e
  end.

(** ** The part of pandas the scripts use *)

Section Pandas.

Context {F : Type} `{Float64 F}.
Local Open Scope f64_scope.

(** A cell is a string or a float; a missing value is the float [nan]. *)
Inductive cell : Type :=
| CStr (s : string)
| CNum (x : F).

(** A frame maps a column label to its column; all columns have the
    length of the frame. *)
Definition DataFrame : Type := gmap string (list cell).

(** [df[col]] *)
Definition getitem (df : gmap string (list cell)) (col : string)
  : result (list cell) :=
  match df !! col with
  | Some s => Return s
  | None => Raise (KeyError col)
  end.

(** [series == value], for a string [value] *)
Definition series_eq (s : list cell) (value : string) : list bool :=
  map (fun c => match c with
                | CStr x => String.eqb x value
                | CNum _ => false
                end) s.

Fixpoint select {A : Type} (mask : list bool) (l : list A) : list A :=
  match mask, l with
  | true :: m, x :: r => x :: select m r
  | false :: m, _ :: r => select m r
  | _, _ => []
  end.

(** [df[mask]] *)
Definition getitem_mask (df : gmap string (list cell)) (mask : list bool)
  : gmap string (list cell) :=
  select mask <$> df.

Definition isna (c : cell) : bool :=
  match c with
  | CNum x => fisnan x
  | CStr _ => false
  end.

(** [series.dropna()] *)
Definition dropna (s : list cell) : list cell :=
  List.filter (fun c => negb (isna c)) s.

(** The floats of a column on which a numeric reduction is called; a
    string makes the reduction raise. *)
Fixpoint float_values (s : list cell) : result (list F) :=
  match s with
  | [] => Return []
  | CNum x :: r => v ← float_values r; Return (x :: v)
  | CStr _ :: _ => Raise TypeError
  end.

(** The sum of a series, taken from left to right.  numpy adds pairwise:
    the two orders give the same result in exact arithmetic, and in
    binary64 whenever the partial sums are exact, as on the integer data
    of the binary64 runs; on other binary64 data they can differ in the
    last bits. *)
Definition fsum (v : list F) : F := fold_left fadd v (fZ 0).

Definition len {A : Type} (l : list A) : Z := Z.of_nat (length l).

(** [series.mean()], [series.var()] and [series.std()] on the floats of a
    series: missing values are skipped, the variance has the N-1
    denominator and is [nan] when fewer than two values are left. *)
Definition dropna_floats (v : list F) : list F :=
  List.filter (fun x => negb (fisnan x)) v.

Definition mean (v : list F) : F :=
  let v := dropna_floats v in
  fsum v / fZ (len v).

Definition var (v : list F) : F :=
  let v := dropna_floats v in
  if (len v <=? 1)%Z then fnan
  else
    let avg := fsum v / fZ (len v) in
    fsum (map (fun x => (avg - x) * (avg - x)) v) / fZ (len v - 1).

Definition std (v : list F) : F := fsqrt (var v).

End Pandas.

Arguments cell F : clear implicits.
Arguments DataFrame F : clear implicits.

(** ** scripts/validate_sef_framework.py, scripts/validate_multi_domain_sef.py *)

Section Scripts.

Context {F : Type} `{Float64 F}.
Local Open Scope f64_scope.

(** [calculate_sef(kappa, rho)], identical in both scripts. *)
Definition calculate_sef (kappa rho : F) : F :=
  if fZ 1 + kappa - fZ 2 * fsqrt kappa * rho <=? fZ 0 then finf
  else (fZ 1 + kappa) / (fZ 1 + kappa - fZ 2 * fsqrt kappa * rho).

(** The two scipy tests the validators call, as the [(statistic, p-value)]
    pair they return: [shapiro(x)] and [kstest(x, 'norm')]. *)
Variable shapiro : list F -> F * F.
Variable kstest_norm : list F -> F * F.

(** The statements under "Calculate basic statistics" and "Calculate SEF
    parameters", the same in [validate_sef_framework] and in
    [validate_domain_sef]. *)
Record sef_parameters : Type := {
  mean_a : F; mean_b : F;
  var_a : F; var_b : F;
  std_a : F; std_b : F;
  est_kappa : F;
  est_delta : F
}.

Definition estimate_parameters (class_a class_b : list F) : sef_parameters :=
  let mean_a := mean class_a in
  let mean_b := mean class_b in
  let var_a := var class_a in
  let var_b := var class_b in
  let std_a := fsqrt var_a in
  let std_b := fsqrt var_b in
  let kappa := var_b / var_a in
  let delta := fabs (mean_a - mean_b) / std_a in
  {| mean_a := mean_a; mean_b := mean_b; var_a := var_a; var_b := var_b;
     std_a := std_a; std_b := std_b; est_kappa := kappa; est_delta := delta |}.

(** [df[df[class_col] == value][measurement_col].dropna()] *)
Definition class_measurements (df : gmap string (list (cell F)))
    (class_col value measurement_col : string) : result (list (cell F)) :=
  labels ← getitem df class_col;
  column ← getitem (getitem_mask df (series_eq labels value)) measurement_col;
  Return (dropna column).

(** The p-value of the normality test of the validators. *)
Definition normality_p (n : Z) (x : list F) : F :=
  snd (if (n <=? 5000)%Z then shapiro x else kstest_norm x).

(** Cohen's d, with the pooled standard deviation. *)
Definition cohens_d_of (n_a n_b : Z) (p : sef_parameters) : F :=
  let pooled_std :=
    fsqrt ((fZ (n_a - 1) * var_a p + fZ (n_b - 1) * var_b p)
           / fZ (n_a + n_b - 2)) in
  fabs (mean_a p - mean_b p) / pooled_std.

(** The five checks of "Framework applicability", one point each. *)
Definition applicability (n_a n_b : Z) (kappa delta p_a p_b cohens_d : F) : Z :=
  (if (n_a >=? 20)%Z && (n_b >=? 20)%Z then 1 else 0)
  + (if (fdec 5 1 <=? kappa) && (kappa <=? fZ 5) then 1 else 0)
  + (if delta >? fdec 1 1 then 1 else 0)
  + (if (p_a >? fdec 5 2) && (p_b >? fdec 5 2) then 1 else 0)
  + (if cohens_d >? fdec 2 1 then 1 else 0).

(** The dictionary [validate_sef_framework] returns. *)
Record sef_report : Type := {
  sef : F;
  kappa : F;
  rho : F;
  delta : F;
  improvement_percent : F;
  applicability_score : Z;
  max_score : Z;
  cohens_d : F;
  normality_a : F;
  normality_b : F;
  sample_size_a : Z;
  sample_size_b : Z
}.

(** [validate_sef_framework(df, class_a_col, class_a_value, class_b_value,
    measurement_col)]; what it prints is left out. *)
Definition validate_sef_framework (df : gmap string (list (cell F)))
    (class_a_col class_a_value class_b_value measurement_col : string)
  : result (option sef_report) :=
  class_a ← class_measurements df class_a_col class_a_value measurement_col;
  class_b ← class_measurements df class_a_col class_b_value measurement_col;
  if (len class_a <? 10)%Z || (len class_b <? 10)%Z then Return None
  else
    a ← float_values class_a;
    b ← float_values class_b;
    let p := estimate_parameters a b in
    let estimated_rho := fdec 2 1 in
    let sef := calculate_sef (est_kappa p) estimated_rho in
    let improvement_percent := (sef - fZ 1) * fZ 100 in
    let p_a := normality_p (len class_a) a in
    let p_b := normality_p (len class_b) b in
    let cohens_d := cohens_d_of (len class_a) (len class_b) p in
    let applicability_score :=
      applicability (len class_a) (len class_b) (est_kappa p) (est_delta p)
                    p_a p_b cohens_d in
    Return (Some {|
      sef := sef; kappa := est_kappa p; rho := estimated_rho;
      delta := est_delta p; improvement_percent := improvement_percent;
      applicability_score := applicability_score; max_score := 5;
      cohens_d := cohens_d; normality_a := p_a; normality_b := p_b;
      sample_size_a := len class_a; sample_size_b := len class_b |}).

(** The correlation [validate_domain_sef] assumes for a domain. *)
Definition domain_rho (domain_name : string) : F :=
  if String.eqb domain_name "Sports" then fdec 15 2
  else if String.eqb domain_name "Education" then fdec 25 2
  else if String.eqb domain_name "Finance" then fdec 30 2
  else if String.eqb domain_name "Healthcare" then fdec 20 2
  else fdec 20 2.

(** The dictionary [validate_domain_sef] returns: the report above with
    the domain, the expected range and whether the SEF lies in it. *)
Record domain_report : Type := {
  domain : string;
  report : sef_report;
  expected_range : F * F;
  within_expected : bool
}.

(** [validate_domain_sef(df, domain_name, class_col, class_a, class_b,
    measurement_col, expected_sef_range)]; what it prints is left out. *)
Definition validate_domain_sef (df : gmap string (list (cell F)))
    (domain_name class_col class_a class_b measurement_col : string)
    (expected_sef_range : F * F) : result (option domain_report) :=
  class_a_data ← class_measurements df class_col class_a measurement_col;
  class_b_data ← class_measurements df class_col class_b measurement_col;
  if (len class_a_data <? 10)%Z || (len class_b_data <? 10)%Z then Return None
  else
    a ← float_values class_a_data;
    b ← float_values class_b_data;
    let p := estimate_parameters a b in
    let estimated_rho := domain_rho domain_name in
    let sef := calculate_sef (est_kappa p) estimated_rho in
    let improvement_percent := (sef - fZ 1) * fZ 100 in
    let '(expected_min, expected_max) := expected_sef_range in
    let p_a := normality_p (len class_a_data) a in
    let p_b := normality_p (len class_b_data) b in
    let cohens_d := cohens_d_of (len class_a_data) (len class_b_data) p in
    let applicability_score :=
      applicability (len class_a_data) (len class_b_data)
                    (est_kappa p) (est_delta p) p_a p_b cohens_d in
    Return (Some {|
      domain := domain_name;
      report := {|
        sef := sef; kappa := est_kappa p; rho := estimated_rho;
        delta := est_delta p; improvement_percent := improvement_percent;
        applicability_score := applicability_score; max_score := 5;
        cohens_d := cohens_d; normality_a := p_a; normality_b := p_b;
        sample_size_a := len class_a_data;
        sample_size_b := len class_b_data |};
      expected_range := expected_sef_range;
      within_expected := (expected_min <=? sef) && (sef <=? expected_max) |}).

End Scripts.

(** ** scripts/apply_sef_to_cms_data.py *)

Module Cms.

Section Functions.

Context {F : Type} `{Float64 F}.
Local Open Scope f64_scope.

(** scipy and numpy as the script calls them: [shapiro(x)],
    [kstest(x, 'norm', args=(mean, std))], [normaltest(x)] and
    [stats.pearsonr(x, y)], which may refuse their sample, and [np.log]. *)
Variable shapiro : list F -> F * F.
Variable kstest_fitted : list F -> F -> F -> F * F.
Variable normaltest : list F -> result (F * F).
Variable pearsonr : list F -> list F -> result (F * F).
Variable np_log : F -> F.

(** [all(p > 0.05 for p in [shapiro_p, ks_p, dagostino_p])] *)
Definition all_above_005 (ps : list F) : bool :=
  forallb (fun p => p >? fdec 5 2) ps.

(** The three tests of [test_normality_and_log_transform] on one sample. *)
Definition three_tests_normal (x : list F) : result bool :=
  let '(_, shapiro_p) := shapiro x in
  let '(_, ks_p) := kstest_fitted x (mean x) (std x) in
  '(_, dagostino_p) ← normaltest x;
  Return (all_above_005 [shapiro_p; ks_p; dagostino_p]).

(** [test_normality_and_log_transform(data, measure_name)] returns
    [(series, is_normal, log_transformed)]. *)
Definition test_normality_and_log_transform (data : list F)
  : result (list F * bool * bool) :=
  let clean_data := dropna_floats data in
  if (len clean_data <? 3)%Z then Return (data, false, false)
  else
    is_normal ← three_tests_normal clean_data;
    if negb is_normal && forallb (fun x => x >? fZ 0) clean_data then
      let log_data := map np_log clean_data in
      log_is_normal ← three_tests_normal log_data;
      if (log_is_normal : bool) then Return (log_data, is_normal, true)
      else Return (clean_data, is_normal, false)
    else Return (clean_data, is_normal, false).

(** The dictionary [calculate_sef_parameters] returns. *)
Record parameters : Type := {
  delta : F;
  kappa : F;
  rho : F;
  mayo_mean : F;
  mayo_std : F;
  cleveland_mean : F;
  cleveland_std : F;
  mayo_log : bool;
  cleveland_log : bool
}.

(** [calculate_sef_parameters(mayo_data, cleveland_data, measure_name)] *)
Definition calculate_sef_parameters (mayo_data cleveland_data : list F)
  : result parameters :=
  '(mayo_clean, mayo_normal, mayo_log) ←
    test_normality_and_log_transform mayo_data;
  '(cleveland_clean, cleveland_normal, cleveland_log) ←
    test_normality_and_log_transform cleveland_data;
  let mayo_final := mayo_clean in
  let cleveland_final := cleveland_clean in
  let mayo_mean := mean mayo_final in
  let mayo_std := std mayo_final in
  let cleveland_mean := mean cleveland_final in
  let cleveland_std := std cleveland_final in
  let delta := fabs (mayo_mean - cleveland_mean) in
  let kappa :=
    if mayo_std <>? fZ 0
    then (cleveland_std * cleveland_std) / (mayo_std * mayo_std)
    else finf in
  correlation ←
    (if (len mayo_final >? 1)%Z && (len cleveland_final >? 1)%Z
     then '(correlation, _) ← pearsonr mayo_final cleveland_final;
          Return correlation
     else Return (fZ 0));
  Return {| delta := delta; kappa := kappa; rho := correlation;
            mayo_mean := mayo_mean; mayo_std := mayo_std;
            cleveland_mean := cleveland_mean; cleveland_std := cleveland_std;
            mayo_log := mayo_log; cleveland_log := cleveland_log |}.

(** The dictionary [calculate_sef_improvement] returns. *)
Record improvement : Type := {
  snr_independent : F;
  snr_relative : F;
  sef : F;
  improvement_percent : F
}.

(** [calculate_sef_improvement(params)]; [x ** 2] is written [x * x],
    which is the same number in exact arithmetic and can differ from
    numpy's power in the last bit in binary64. *)
Definition calculate_sef_improvement (params : parameters)
  : improvement :=
  let delta := delta params in
  let rho := rho params in
  let mayo_var := mayo_std params * mayo_std params in
  let cleveland_var := cleveland_std params * cleveland_std params in
  let snr_independent := (delta * delta) / (mayo_var + cleveland_var) in
  let relative_var :=
    mayo_var + cleveland_var
    - fZ 2 * rho * mayo_std params * cleveland_std params in
  let snr_relative :=
    if relative_var >? fZ 0 then (delta * delta) / relative_var else finf in
  let sef :=
    if snr_independent >? fZ 0 then snr_relative / snr_independent
    else finf in
  {| snr_independent := snr_independent; snr_relative := snr_relative;
     sef := sef; improvement_percent := (sef - fZ 1) * fZ 100 |}.

End Functions.

End Cms.

(** ** data/raw/Scraped Data/Code/validate_clinical_data.py *)

Section Clinical.

Context {F : Type} `{Float64 F}.

(** [shapiro], [normaltest] and [jarque_bera] of scipy.stats. *)
Variable shapiro : list F -> F * F.
Variable normaltest : list F -> F * F.
Variable jarque_bera : list F -> F * F.

Inductive scipy_test : Type := Shapiro | Normaltest | JarqueBera.

(** One entry of the dictionary of results. *)
Record test_result : Type := {
  statistic : F;
  p_value : F
}.

Definition entry (r : F * F) : test_result :=
  {| statistic := fst r; p_value := snd r |}.

(** The dictionary under construction and the scipy calls made so far. *)
Definition checker_state : Type :=
  (list scipy_test * gmap string test_result)%type.

(** One guarded block: under [guard], call [test] on [data] and store its
    result under [key]; otherwise leave everything as it is. *)
Definition guarded_test (guard : bool) (called : scipy_test)
    (test : list F -> F * F) (key : string) (data : list F)
    (st : checker_state) : checker_state :=
  if guard
  then (st.1 ++ [called], <[key := entry (test data)]> st.2)
  else st.

(** [test_normality(data)]: the dictionary it returns, together with the
    calls to scipy it made, in order. *)
Definition test_normality (data : list F) : checker_state :=
  let st : checker_state := ([], ∅) in
  let st :=
    guarded_test ((len data >=? 3)%Z && (len data <=? 5000)%Z)
                 Shapiro shapiro "Shapiro-Wilk" data st in
  let st :=
    guarded_test (len data >=? 8)%Z
                 Normaltest normaltest "D'Agostino K²" data st in
  let st :=
    guarded_test (len data >=? 8)%Z
                 JarqueBera jarque_bera "Jarque-Bera" data st in
  st.

End Clinical.

(** The rest of validate_clinical_data.py: the variance analysis, the
    binary-outcome analysis and the overall assessment. *)

(** The messages of validate_clinical_data.py. *)
Definition some_deviation : string :=
  "Data shows some deviation from normality".
Definition significant_deviation : string :=
  "Data significantly deviates from normality - consider transformations".
Definition variance_instability : string :=
  "High variance instability - may affect framework performance".
Definition insufficient_points : string :=
  "Insufficient data points for reliable variance estimation".
Definition limited_binary : string :=
  "Limited ability to create meaningful binary outcomes".
Definition limited_options : string :=
  "Limited binary outcome options available".
Definition appears_suitable : string :=
  "Data appears suitable for competitive measurement framework".
Definition by_study_type : string :=
  "Interventional vs Observational".
Definition by_condition : string :=
  "Diabetes-related vs Other conditions".

Section ClinicalAssessment.

Context {F : Type} `{Float64 F}.
Local Open Scope f64_scope.

(** [series.median()] of pandas and the format [{x:.0f}]. *)
Variable median : list F -> F.
Variable format_0f : F -> string.

(** The dictionary [analyze_variance] returns. *)
Record variance_analysis : Type := {
  sample_variance : F;
  cv : F;
  variance_stable : bool;
  sufficient_data : bool
}.

(** [analyze_variance(data)] *)
Definition analyze_variance (data : list F) : variance_analysis :=
  let sample_variance := var data in
  let cv := if mean data <>? fZ 0 then std data / mean data else finf in
  let variance_stable := cv <? fZ 1 in
  let sufficient_data := (len data >=? 3)%Z in
  {| sample_variance := sample_variance; cv := cv;
     variance_stable := variance_stable;
     sufficient_data := sufficient_data |}.

(** Two cells hold the same value; as in pandas' [unique], all missing
    values count as one value. *)
Definition same_value (c d : cell F) : bool :=
  match c, d with
  | CStr s, CStr t => String.eqb s t
  | CNum x, CNum y => (x =? y) || (fisnan x && fisnan y)
  | _, _ => false
  end.

(** [series.unique().tolist()]: the values in order of first appearance. *)
Definition unique (s : list (cell F)) : list (cell F) :=
  fold_left (fun seen c => if existsb (same_value c) seen then seen
                           else seen ++ [c]) s [].

(** The dictionary [assess_binary_prediction_suitability] returns. *)
Record binary_analysis : Type := {
  study_types : list (cell F);
  conditions : list (cell F);
  can_create_binary : bool;
  suggested_outcomes : list string
}.

(** [assess_binary_prediction_suitability(df, enrollment_data)] *)
Definition assess_binary_prediction_suitability
    (df : gmap string (list (cell F))) (enrollment_data : list F)
  : result binary_analysis :=
  study_type_column ← getitem df "StudyType";
  let study_types := unique study_type_column in
  condition_column ← getitem df "Condition";
  let conditions := unique condition_column in
  let can_create_binary :=
    (len study_types >=? 2)%Z || (len conditions >=? 2)%Z in
  let suggested_outcomes : list string := [] in
  let suggested_outcomes :=
    if (len study_types >=? 2)%Z
    then suggested_outcomes ++ [by_study_type]
    else suggested_outcomes in
  let suggested_outcomes :=
    if (len conditions >=? 2)%Z
    then suggested_outcomes ++ [by_condition]
    else suggested_outcomes in
  let suggested_outcomes :=
    if (len enrollment_data >=? 4)%Z
    then
      let median_enrollment := median enrollment_data in
      suggested_outcomes
      ++ [String.append "High enrollment (>="
            (String.append (format_0f median_enrollment)
                           ") vs Low enrollment")]
    else suggested_outcomes in
  Return {| study_types := study_types; conditions := conditions;
            can_create_binary := can_create_binary;
            suggested_outcomes := suggested_outcomes |}.

(** The dictionary [generate_overall_assessment] returns. *)
Record overall_assessment : Type := {
  quality_score : Z;
  framework_suitable : bool;
  recommendations : list string
}.

(** The number of tests of the dictionary whose p-value exceeds 0.05. *)
Definition normal_tests_of (normality_results : gmap string test_result) : Z :=
  len (List.filter (fun kv : string * test_result => p_value kv.2 >? fdec 5 2)
                   (map_to_list normality_results)).

(** [generate_overall_assessment(normality_results, variance_analysis,
    binary_analysis)]: the score and the recommendations are built up
    block by block. *)
Definition generate_overall_assessment
    (normality_results : gmap string test_result)
    (variance_analysis : variance_analysis)
    (binary_analysis : binary_analysis) : overall_assessment :=
  let quality_score := 0%Z in
  let recommendations : list string := [] in
  let normal_tests := normal_tests_of normality_results in
  let '(quality_score, recommendations) :=
    (if (normal_tests >=? 2)%Z then ((quality_score + 3)%Z, recommendations)
     else if (normal_tests >=? 1)%Z
     then ((quality_score + 2)%Z, recommendations ++ [some_deviation])
     else (quality_score, recommendations ++ [significant_deviation]))
    : Z * list string in
  let '(quality_score, recommendations) :=
    (if variance_stable variance_analysis
     then ((quality_score + 2)%Z, recommendations)
     else (quality_score, recommendations ++ [variance_instability]))
    : Z * list string in
  let '(quality_score, recommendations) :=
    (if sufficient_data variance_analysis
     then ((quality_score + 1)%Z, recommendations)
     else (quality_score, recommendations ++ [insufficient_points]))
    : Z * list string in
  let '(quality_score, recommendations) :=
    (if can_create_binary binary_analysis
     then ((quality_score + 3)%Z, recommendations)
     else (quality_score, recommendations ++ [limited_binary]))
    : Z * list string in
  let '(quality_score, recommendations) :=
    (if (len (suggested_outcomes binary_analysis) >=? 2)%Z
     then ((quality_score + 1)%Z, recommendations)
     else (quality_score, recommendations ++ [limited_options]))
    : Z * list string in
  let framework_suitable := (quality_score >=? 6)%Z in
  let recommendations :=
    match recommendations with
    | [] => recommendations ++ [appears_suitable]
    | _ => recommendations
    end in
  {| quality_score := quality_score;
     framework_suitable := framework_suitable;
     recommendations := recommendations |}.

End ClinicalAssessment.

(** The scenario loop of [analyze_mlperf_data] in
    scripts/validate_sef_framework.py. *)

Section MlperfAnalysis.

Context {F : Type} `{Float64 F}.
Variable shapiro kstest_norm : list F -> F * F.

(** One entry of the list [scenarios]. *)
Record scenario : Type := {
  name : string;
  class_col : string;
  class_a : string;
  class_b : string;
  measurement_col : string
}.

Definition scenarios : list scenario :=
  [ {| name := "Hardware Type (GPU vs TPU)";
       class_col := "hardware_type"; class_a := "GPU"; class_b := "TPU";
       measurement_col := "accuracy" |};
    {| name := "Software Framework (TensorFlow vs PyTorch)";
       class_col := "software_framework";
       class_a := "TensorFlow"; class_b := "PyTorch";
       measurement_col := "accuracy" |};
    {| name := "Benchmark Type (Training vs Inference)";
       class_col := "benchmark_type";
       class_a := "training_results"; class_b := "inference_results";
       measurement_col := "accuracy" |} ].

(** [mask_a | mask_b] *)
Definition mask_or (m1 m2 : list bool) : list bool :=
  zip_with orb m1 m2.

(** [len(df[mask])]: the rows at which the mask holds. *)
Definition len_masked (mask : list bool) : Z :=
  len (List.filter (fun b : bool => b) mask).

(** The body of the loop: the rows of the two classes are selected, a
    selection of fewer than 20 rows is skipped, and the report of the
    validator, if it returns one, is stored under the scenario's name. *)
Definition analyze_scenario (df : gmap string (list (cell F)))
    (results : gmap string sef_report) (sc : scenario)
  : result (gmap string sef_report) :=
  labels_a ← getitem df (class_col sc);
  labels_b ← getitem df (class_col sc);
  let mask := mask_or (series_eq labels_a (class_a sc))
                      (series_eq labels_b (class_b sc)) in
  let scenario_data := getitem_mask df mask in
  if (len_masked mask <? 20)%Z then Return results
  else
    r ← validate_sef_framework shapiro kstest_norm scenario_data
          (class_col sc) (class_a sc) (class_b sc) (measurement_col sc);
    match r with
    | Some report => Return (<[name sc := report]> results)
    | None => Return results
    end.

(** [analyze_mlperf_data()] once the file is loaded: the dictionary
    [results] its summary is printed from. *)
Definition analyze_mlperf_data (df : gmap string (list (cell F)))
  : result (gmap string sef_report) :=
  foldl (fun acc sc => results ← acc; analyze_scenario df results sc)
        (Return ∅) scenarios.

End MlperfAnalysis.

(** * Reference definitions and concrete inputs *)

Section Reference.

Local Open Scope R_scope.

(** The denominator of the SEF at finite arguments with a non-negative
    variance ratio. *)
Definition sef_denominator (kappa rho : R) : R :=
  1 + kappa - 2 * sqrt kappa * rho.

(** [0 <= x] on a float, false for [nan]. *)
Definition nonnegative (x : npfloat) : Prop := Ideal.le (Fin 0) x = true.

(** The sample mean and the unbiased sample variance of the spec, over
    the reals. *)
Fixpoint Rsum (l : list R) : R :=
  match l with
  | [] => 0
  | x :: r => x + Rsum r
  end.

Definition Rmean (l : list R) : R := Rsum l / INR (length l).

Definition Rvar (l : list R) : R :=
  Rsum (map (fun x => (Rmean l - x) * (Rmean l - x)) l) / (INR (length l) - 1).

(** The dictionary [calculate_sef_improvement] reads, for finite values:
    it uses the keys ['delta'], ['rho'], ['mayo_std'] and
    ['cleveland_std'] only. *)
Definition cms_params (delta var_A var_B rho mean_A mean_B : R)
    (log_A log_B : bool) : Cms.parameters :=
  {| Cms.delta := Fin delta;
     Cms.kappa := Fin (var_B / var_A);
     Cms.rho := Fin rho;
     Cms.mayo_mean := Fin mean_A;
     Cms.mayo_std := Fin (sqrt var_A);
     Cms.cleveland_mean := Fin mean_B;
     Cms.cleveland_std := Fin (sqrt var_B);
     Cms.mayo_log := log_A;
     Cms.cleveland_log := log_B |}.

End Reference.

(** A stand-in for a scipy test in the concrete runs: statistic 1,
    p-value 1. *)
Definition constant_test (x : list npfloat) : npfloat * npfloat :=
  (Fin 1, Fin 1).

(** A frame with ten observations per group and no spread in group A. *)
Definition degenerate_frame : gmap string (list (cell npfloat)) :=
  {[ "group" := replicate 10 (CStr "A") ++ replicate 10 (CStr "B");
     "value" := map (fun x => CNum (Fin x))
                    (replicate 10 5%R ++ [7; 1; 7; 1; 4; 4; 4; 4; 4; 4]%R) ]}.

(** Group A = [10, 12, 14, 16, 18] and Group B = [5, 25, 45] as a frame. *)
Definition scenario_frame : gmap string (list (cell npfloat)) :=
  {[ "group" := replicate 5 (CStr "A") ++ replicate 3 (CStr "B");
     "value" := map (fun x => CNum (Fin x))
                    [10; 12; 14; 16; 18; 5; 25; 45]%R ]}.

(** The same inputs in binary64. *)
Module Binary64Inputs.

Local Open Scope f64_scope.

Definition floats (l : list Z) : list PrimFloat.float := map fZ l.

Definition constant_test64 (x : list PrimFloat.float)
  : PrimFloat.float * PrimFloat.float := (fZ 1, fZ 1).

Definition degenerate_frame64 : gmap string (list (cell PrimFloat.float)) :=
  {[ "group" := replicate 10 (CStr "A") ++ replicate 10 (CStr "B");
     "value" := map (fun z => CNum (fZ z))
                    (replicate 10 5%Z ++ [7; 1; 7; 1; 4; 4; 4; 4; 4; 4]%Z) ]}.

(** A dictionary as [calculate_sef_parameters] returns it: means 0 and 1,
    standard deviations 1 and 2, correlation 0.5. *)
Definition rounding_params : Cms.parameters (F := PrimFloat.float) :=
  {| Cms.delta := fZ 1;
     Cms.kappa := fZ 4;
     Cms.rho := fdec 5 1;
     Cms.mayo_mean := fZ 0;
     Cms.mayo_std := fZ 1;
     Cms.cleveland_mean := fZ 1;
     Cms.cleveland_std := fZ 2;
     Cms.mayo_log := false;
     Cms.cleveland_log := false |}.

End Binary64Inputs.

(** A scipy test that refuses every sample, and a correlation that is
    always 0 with p-value 1. *)
Definition refusing_test (x : list npfloat) : result (npfloat * npfloat) :=
  Raise ValueError.

Definition zero_correlation (x y : list npfloat)
  : result (npfloat * npfloat) := Return (Fin 0, Fin 1).

Definition fitted_constant_test (x : list npfloat) (m s : npfloat)
  : npfloat * npfloat := (Fin 1, Fin 1).

(** The same stand-ins in binary64. *)
Module Binary64Stubs.

Definition fitted_constant_test64 (x : list PrimFloat.float)
    (m s : PrimFloat.float) : PrimFloat.float * PrimFloat.float :=
  (fZ 1, fZ 1).

Definition refusing_test64 (x : list PrimFloat.float)
  : result (PrimFloat.float * PrimFloat.float) := Raise ValueError.

Definition zero_correlation64 (x y : list PrimFloat.float)
  : result (PrimFloat.float * PrimFloat.float) := Return (fZ 0, fZ 1).

End Binary64Stubs.

(** * Properties *)

(** ** Evaluating the idealised arithmetic *)

Section IdealFacts.

Local Open Scope R_scope.

Lemma Rleb_true (x y : R) : x <= y -> Ideal.Rleb x y = true.
Proof. unfold Ideal.Rleb. destruct (Rle_dec x y); [reflexivity | contradiction]. Qed.

Lemma Rleb_false (x y : R) : y < x -> Ideal.Rleb x y = false.
Proof. unfold Ideal.Rleb. destruct (Rle_dec x y); [lra | reflexivity]. Qed.

Lemma Rltb_true (x y : R) : x < y -> Ideal.Rltb x y = true.
Proof. unfold Ideal.Rltb. destruct (Rlt_dec x y); [reflexivity | contradiction]. Qed.

Lemma Rltb_false (x y : R) : y <= x -> Ideal.Rltb x y = false.
Proof. unfold Ideal.Rltb. destruct (Rlt_dec x y); [lra | reflexivity]. Qed.

Lemma Reqb_true (x y : R) : x = y -> Ideal.Reqb x y = true.
Proof. unfold Ideal.Reqb. destruct (Req_dec_T x y); [reflexivity | contradiction]. Qed.

Lemma Reqb_false (x y : R) : x <> y -> Ideal.Reqb x y = false.
Proof. unfold Ideal.Reqb. destruct (Req_dec_T x y); [contradiction | reflexivity]. Qed.

Lemma div_Fin (x y : R) : y <> 0 -> Ideal.div (Fin x) (Fin y) = Fin (x / y).
Proof. intros Hy. unfold Ideal.div. rewrite Reqb_false by assumption. reflexivity. Qed.

Lemma sqrt_Fin (x : R) : 0 <= x -> Ideal.sqrt (Fin x) = Fin (sqrt x).
Proof. intros Hx. unfold Ideal.sqrt. rewrite Rltb_false by assumption. reflexivity. Qed.

Lemma sqrt_neg (x : R) : x < 0 -> Ideal.sqrt (Fin x) = NaN.
Proof. intros Hx. unfold Ideal.sqrt. rewrite Rltb_true by assumption. reflexivity. Qed.

Lemma calculate_sef_finite (kappa rho : R) :
  0 <= kappa ->
  calculate_sef (Fin kappa) (Fin rho) =
    if Ideal.Rleb (sef_denominator kappa rho) 0 then PInf
    else Fin ((1 + kappa) / sef_denominator kappa rho).
Proof.
  intros Hk. unfold calculate_sef, sef_denominator.
  cbn [fadd fsub fmul fdiv fsqrt fle fZ finf npfloat_Float64].
  rewrite sqrt_Fin by assumption.
  cbn [Ideal.add Ideal.sub Ideal.mul Ideal.neg Ideal.le].
  replace (1 + kappa + - (2 * sqrt kappa * rho))
    with (1 + kappa - 2 * sqrt kappa * rho) by ring.
  unfold Ideal.Rleb. destruct (Rle_dec _ 0) as [Hle | Hgt]; [reflexivity|].
  apply div_Fin. lra.
Qed.

(** For a positive variance ratio and a correlation in [[-1, 1]] the
    denominator is a sum of two non-negative terms. *)
Lemma sef_denominator_nonneg (kappa rho : R) :
  0 < kappa -> -1 <= rho <= 1 -> 0 <= sef_denominator kappa rho.
Proof.
  intros Hk Hr. unfold sef_denominator.
  pose proof (sqrt_lt_R0 kappa Hk) as Hs.
  pose proof (sqrt_sqrt kappa (Rlt_le _ _ Hk)) as Hss.
  set (s := sqrt kappa) in *.
  assert (Hsq : 0 <= (1 - s) * (1 - s)) by apply Rle_0_sqr.
  assert (Hcross : 0 <= s * (1 - rho)) by (apply Rmult_le_pos; lra).
  lra.
Qed.

(** X5: for kappa > 0 and rho in [-1, 1] the guard fires, and
    calculate_sef returns +inf, only at the asymptote kappa = 1, rho = 1. *)
Lemma calculate_sef_infinite (kappa rho : R) :
  0 < kappa -> -1 <= rho <= 1 ->
  (calculate_sef (Fin kappa) (Fin rho) = PInf <-> kappa = 1 /\ rho = 1).
Proof.
  intros Hk Hr. rewrite calculate_sef_finite by lra.
  pose proof (sef_denominator_nonneg kappa rho Hk Hr) as Hnonneg.
  pose proof (sqrt_lt_R0 kappa Hk) as Hs.
  pose proof (sqrt_sqrt kappa (Rlt_le _ _ Hk)) as Hss.
  unfold Ideal.Rleb. destruct (Rle_dec (sef_denominator kappa rho) 0) as [Hle | Hgt].
  - split; [intros _ | reflexivity].
    unfold sef_denominator in *. set (s := sqrt kappa) in *.
    assert (Hsq : 0 <= (1 - s) * (1 - s)) by apply Rle_0_sqr.
    assert (Hcross : 0 <= s * (1 - rho)) by (apply Rmult_le_pos; lra).
    assert (Hs1 : (1 - s) * (1 - s) = 0) by lra.
    assert (Hc0 : s * (1 - rho) = 0) by lra.
    apply Rmult_integral in Hs1. apply Rmult_integral in Hc0.
    assert (Hone : s = 1) by lra.
    split; [rewrite <- Hss, Hone; ring | lra].
  - split; [discriminate|]. intros [-> ->].
    exfalso. apply Hgt. unfold sef_denominator. rewrite sqrt_1. lra.
Qed.

End IdealFacts.

(** ** The SEF calculator *)

Section Calculator.

Local Open Scope R_scope.

(** C1: for kappa > 0 and rho in [-1, 1], calculate_sef returns +inf when
    1 + kappa - 2*sqrt(kappa)*rho <= 0 and (1 + kappa) divided by that
    denominator otherwise, and its result is non-negative. *)
Theorem C1_calculate_sef_contract (kappa rho : R) :
  0 < kappa -> -1 <= rho <= 1 ->
  let denominator := 1 + kappa - 2 * sqrt kappa * rho in
  (denominator <= 0 -> calculate_sef (Fin kappa) (Fin rho) = PInf) /\
  (0 < denominator ->
     calculate_sef (Fin kappa) (Fin rho) = Fin ((1 + kappa) / denominator)) /\
  nonnegative (calculate_sef (Fin kappa) (Fin rho)).
Proof.
  intros Hk Hr denominator.
  assert (Heq : calculate_sef (Fin kappa) (Fin rho) =
                if Ideal.Rleb denominator 0 then PInf
                else Fin ((1 + kappa) / denominator)).
  { apply calculate_sef_finite. lra. }
  repeat split.
  - intros Hd. rewrite Heq, Rleb_true by assumption. reflexivity.
  - intros Hd. rewrite Heq, Rleb_false by assumption. reflexivity.
  - rewrite Heq. unfold nonnegative, Ideal.Rleb.
    destruct (Rle_dec denominator 0) as [Hle | Hgt]; [reflexivity|].
    cbn. apply Rleb_true.
    apply Rlt_le, Rdiv_lt_0_compat; lra.
Qed.

Lemma C1_witness :
  (0 < 4 /\ -1 <= 1 / 2 <= 1) /\
  calculate_sef (Fin 4) (Fin (1 / 2)) = Fin ((1 + 4) / (1 + 4 - 2 * sqrt 4 * (1 / 2))).
Proof.
  split; [lra|].
  assert (Hs : sqrt 4 = 2).
  { replace 4 with (2 * 2) by lra. apply sqrt_square. lra. }
  refine (proj1 (proj2 (C1_calculate_sef_contract 4 (1 / 2) _ _)) _);
    [lra | lra | rewrite Hs; lra].
Defined.

(** C2, as stated, fails at kappa = 1: the calculator returns 1, not
    1 + kappa = 2. *)
Lemma C2_counterexample : calculate_sef (Fin 1) (Fin 0) <> Fin (1 + 1).
Proof.
  rewrite calculate_sef_finite by lra. unfold sef_denominator.
  rewrite Rleb_false by (rewrite sqrt_1; lra).
  intros Heq. injection Heq as Heq. rewrite sqrt_1 in Heq.
  assert (Hone : (1 + 1) / (1 + 1 - 2 * 1 * 0) = 1) by (field; lra).
  lra.
Qed.

(** C2 (amended): for every kappa > 0, calculate_sef at correlation 0
    returns exactly 1: numerator and denominator are both 1 + kappa. *)
Theorem C2_sef_rho_zero_is_one (kappa : R) :
  0 < kappa -> calculate_sef (Fin kappa) (Fin 0) = Fin 1.
Proof.
  intros Hk. rewrite calculate_sef_finite by lra. unfold sef_denominator.
  rewrite Rleb_false by lra.
  f_equal. field. lra.
Qed.

Lemma C2_witness : 0 < 40 /\ calculate_sef (Fin 40) (Fin 0) = Fin 1.
Proof. split; [lra | apply C2_sef_rho_zero_is_one; lra]. Defined.

(** C5, as stated, fails: at kappa = -1 the calculator returns [nan], and
    at kappa = 0 it returns the ordinary value 1; neither is an error. *)
Lemma C5_counterexample :
  calculate_sef (Fin (-1)) (Fin (2 / 10)) = NaN /\
  calculate_sef (Fin 0) (Fin (2 / 10)) = Fin 1.
Proof.
  split.
  - unfold calculate_sef.
    cbn [fadd fsub fmul fdiv fsqrt fle fZ finf npfloat_Float64].
    rewrite sqrt_neg by lra. reflexivity.
  - rewrite calculate_sef_finite by lra. unfold sef_denominator.
    rewrite sqrt_0. rewrite Rleb_false by lra. f_equal. field.
Qed.

(** C5 (amended): the calculator has no error path.  For kappa < 0 the
    square root is [nan], the guard [nan <= 0] is false and the quotient
    returned is [nan]; for kappa = 0 the result is 1. *)
Theorem C5_nonpositive_kappa (kappa rho : R) :
  kappa <= 0 ->
  (kappa < 0 -> calculate_sef (Fin kappa) (Fin rho) = NaN) /\
  (kappa = 0 -> calculate_sef (Fin kappa) (Fin rho) = Fin 1).
Proof.
  intros _. split.
  - intros Hneg. unfold calculate_sef.
    cbn [fadd fsub fmul fdiv fsqrt fle fZ finf npfloat_Float64].
    rewrite sqrt_neg by assumption. reflexivity.
  - intros ->. rewrite calculate_sef_finite by lra. unfold sef_denominator.
    rewrite sqrt_0. rewrite Rleb_false by lra. f_equal. field.
Qed.

Lemma C5_witness :
  -3 <= 0 /\ calculate_sef (Fin (-3)) (Fin (1 / 2)) = NaN.
Proof.
  split; [lra|].
  refine (proj1 (C5_nonpositive_kappa (-3) (1 / 2) _) _); lra.
Defined.

(** C9: for kappa > 0 and rho >= 0 with a positive denominator, the
    result of calculate_sef is a finite number that is at least 1. *)
Theorem C9_sef_at_least_one (kappa rho : R) :
  0 < kappa -> 0 <= rho -> 0 < 1 + kappa - 2 * sqrt kappa * rho ->
  exists s : R, calculate_sef (Fin kappa) (Fin rho) = Fin s /\ 1 <= s.
Proof.
  intros Hk Hr Hd.
  exists ((1 + kappa) / (1 + kappa - 2 * sqrt kappa * rho)). split.
  - rewrite calculate_sef_finite by lra. unfold sef_denominator.
    rewrite Rleb_false by assumption. reflexivity.
  - pose proof (sqrt_lt_R0 kappa Hk) as Hs.
    assert (Hcross : 0 <= sqrt kappa * rho) by (apply Rmult_le_pos; lra).
    set (d := 1 + kappa - 2 * sqrt kappa * rho) in *.
    apply (Rmult_le_reg_r d); [assumption|].
    replace ((1 + kappa) / d * d) with (1 + kappa) by (field; lra).
    unfold d. lra.
Qed.

Lemma C9_witness :
  (0 < 4 /\ 0 <= 1 / 4 /\ 0 < 1 + 4 - 2 * sqrt 4 * (1 / 4)) /\
  exists s : R, calculate_sef (Fin 4) (Fin (1 / 4)) = Fin s /\ 1 <= s.
Proof.
  assert (Hs : sqrt 4 = 2).
  { replace 4 with (2 * 2) by lra. apply sqrt_square. lra. }
  split; [rewrite Hs; lra|].
  apply C9_sef_at_least_one; [lra | lra | rewrite Hs; lra].
Defined.

End Calculator.

(** ** The signal-to-noise formulation of apply_sef_to_cms_data *)

Section SNR.

Local Open Scope R_scope.

Lemma sqrt_ratio (var_A var_B : R) :
  0 < var_A -> 0 < var_B ->
  sqrt (var_B / var_A) * var_A = sqrt var_A * sqrt var_B.
Proof.
  intros HA HB.
  rewrite sqrt_div_alt by assumption.
  pose proof (sqrt_lt_R0 var_A HA) as HsA.
  rewrite <- (sqrt_sqrt var_A) at 2 by lra.
  field. lra.
Qed.

(** C10, as stated, fails in binary64: with standard deviations 1 and 2,
    delta = 1 and rho = 0.5 the ratio of the two signal-to-noise ratios
    is 1.6666666666666665, strictly below the closed form
    1.6666666666666667. *)
Lemma C10_counterexample :
  Cms.sef (Cms.calculate_sef_improvement Binary64Inputs.rounding_params)
  <> calculate_sef (Cms.kappa Binary64Inputs.rounding_params)
                   (Cms.rho Binary64Inputs.rounding_params).
Proof.
  intros Heq.
  assert (Hlt : flt (Cms.sef (Cms.calculate_sef_improvement
                                Binary64Inputs.rounding_params))
                    (calculate_sef (Cms.kappa Binary64Inputs.rounding_params)
                                   (Cms.rho Binary64Inputs.rounding_params))
                = true) by (vm_compute; reflexivity).
  rewrite Heq in Hlt. vm_compute in Hlt. discriminate.
Qed.

(** C10 (amended): in exact arithmetic, for delta <> 0, positive variances
    and rho in [-1, 1] with a positive closed-form denominator, the SEF
    that Cms.calculate_sef_improvement obtains as the ratio of the two
    signal-to-noise ratios equals calculate_sef(var_B / var_A, rho). *)
Theorem C10_snr_ratio_is_closed_form
    (delta var_A var_B rho mean_A mean_B : R) (log_A log_B : bool) :
  delta <> 0 -> 0 < var_A -> 0 < var_B -> -1 <= rho <= 1 ->
  0 < 1 + var_B / var_A - 2 * sqrt (var_B / var_A) * rho ->
  Cms.sef (Cms.calculate_sef_improvement
             (cms_params delta var_A var_B rho mean_A mean_B log_A log_B))
  = calculate_sef (Fin (var_B / var_A)) (Fin rho).
Proof.
  intros Hdelta HA HB Hrho Hden.
  pose proof (sqrt_sqrt var_A (Rlt_le _ _ HA)) as HsA.
  pose proof (sqrt_sqrt var_B (Rlt_le _ _ HB)) as HsB.
  pose proof (sqrt_ratio var_A var_B HA HB) as Hratio.
  assert (Hkappa : 0 < var_B / var_A) by (apply Rdiv_lt_0_compat; assumption).
  assert (Hdd : 0 < delta * delta) by nra.
  set (sA := sqrt var_A) in *. set (sB := sqrt var_B) in *.
  set (k := sqrt (var_B / var_A)) in *.
  (* the variance of the difference is var_A times the closed-form denominator *)
  assert (Hrel : sA * sA + sB * sB + - (2 * rho * sA * sB)
                 = var_A * (1 + var_B / var_A - 2 * k * rho)).
  { rewrite HsA, HsB.
    replace (2 * rho * sA * sB) with (2 * rho * (k * var_A)) by (rewrite Hratio; ring).
    field. lra. }
  assert (Hrelpos : 0 < sA * sA + sB * sB + - (2 * rho * sA * sB)).
  { rewrite Hrel. apply Rmult_lt_0_compat; assumption. }
  rewrite calculate_sef_finite by lra. unfold sef_denominator. fold k.
  rewrite Rleb_false by assumption.
  unfold Cms.calculate_sef_improvement, cms_params.
  cbn [Cms.sef Cms.delta Cms.rho Cms.mayo_std Cms.cleveland_std].
  cbn [fadd fsub fmul fdiv flt fZ finf npfloat_Float64].
  fold sA sB.
  cbn [Ideal.add Ideal.sub Ideal.mul Ideal.neg Ideal.lt].
  rewrite (Rltb_true 0 (sA * sA + sB * sB + - (2 * rho * sA * sB))) by assumption.
  rewrite (div_Fin (delta * delta) (sA * sA + sB * sB)) by lra.
  rewrite (div_Fin (delta * delta) (sA * sA + sB * sB + - (2 * rho * sA * sB))) by lra.
  cbn [Ideal.lt].
  assert (Hind : 0 < delta * delta / (sA * sA + sB * sB)).
  { apply Rdiv_lt_0_compat; lra. }
  rewrite Rltb_true by assumption.
  rewrite div_Fin by lra.
  assert (Hpoly : var_A + var_B - 2 * k * rho * var_A
                  = sA * sA + sB * sB + - (2 * rho * sA * sB)).
  { rewrite HsA, HsB.
    replace (2 * k * rho * var_A) with (2 * rho * (k * var_A)) by ring.
    rewrite Hratio. ring. }
  f_equal. rewrite Hrel, HsA, HsB. field.
  repeat split; lra.
Qed.

Lemma C10_witness :
  (3 <> 0 /\ 0 < 1 /\ 0 < 4 /\ -1 <= 1 / 2 <= 1 /\
   0 < 1 + 4 / 1 - 2 * sqrt (4 / 1) * (1 / 2)) /\
  Cms.sef (Cms.calculate_sef_improvement (cms_params 3 1 4 (1 / 2) 0 0 false false))
  = calculate_sef (Fin (4 / 1)) (Fin (1 / 2)).
Proof.
  assert (Hs : sqrt (4 / 1) = 2).
  { replace (4 / 1) with (2 * 2) by lra. apply sqrt_square. lra. }
  split; [rewrite Hs; lra|].
  apply C10_snr_ratio_is_closed_form; [lra | lra | lra | lra | rewrite Hs; lra].
Defined.

End SNR.

(** ** The normality checker *)

Section Checker.

Context {F : Type}.
Variable shapiro normaltest jarque_bera : list F -> F * F.

Lemma guarded_test_calls (guard : bool) (called : scipy_test)
    (test : list F -> F * F) (key : string) (data : list F)
    (st : checker_state) (t : scipy_test) :
  t ∈ (guarded_test guard called test key data st).1
  <-> t ∈ st.1 \/ (guard = true /\ t = called).
Proof.
  unfold guarded_test. destruct guard; cbn.
  - rewrite elem_of_app, list_elem_of_singleton. tauto.
  - split; [tauto | intros [? | [? _]]; [assumption | discriminate]].
Qed.

Lemma guarded_test_lookup (guard : bool) (called : scipy_test)
    (test : list F -> F * F) (key : string) (data : list F)
    (st : checker_state) (k : string) :
  (guarded_test guard called test key data st).2 !! k =
    if guard && bool_decide (k = key) then Some (entry (test data))
    else st.2 !! k.
Proof.
  unfold guarded_test. destruct guard; cbn; [|reflexivity].
  case_bool_decide as Hk.
  - subst k. apply lookup_insert_eq.
  - apply lookup_insert_ne. congruence.
Qed.

(** C8: test_normality calls Shapiro-Wilk exactly when 3 <= n <= 5000 and
    D'Agostino K² and Jarque-Bera exactly when n >= 8; the dictionary it
    returns has an entry for a test exactly when that test was called,
    holding what the test returned, and has no other entry. *)
Theorem C8_normality_checker (data : list F) :
  let n := len data in
  let st := test_normality shapiro normaltest jarque_bera data in
  (Shapiro ∈ st.1 <-> (3 <= n <= 5000)%Z) /\
  (Normaltest ∈ st.1 <-> (8 <= n)%Z) /\
  (JarqueBera ∈ st.1 <-> (8 <= n)%Z) /\
  (forall e, st.2 !! "Shapiro-Wilk" = Some e
             <-> Shapiro ∈ st.1 /\ e = entry (shapiro data)) /\
  (forall e, st.2 !! "D'Agostino K²" = Some e
             <-> Normaltest ∈ st.1 /\ e = entry (normaltest data)) /\
  (forall e, st.2 !! "Jarque-Bera" = Some e
             <-> JarqueBera ∈ st.1 /\ e = entry (jarque_bera data)) /\
  (forall key, is_Some (st.2 !! key) ->
               key = "Shapiro-Wilk" \/ key = "D'Agostino K²"
               \/ key = "Jarque-Bera").
Proof.
  intros n st.
  assert (Hcalls : forall t, t ∈ st.1 <->
            ((3 <= n <= 5000)%Z /\ t = Shapiro)
            \/ ((8 <= n)%Z /\ t = Normaltest)
            \/ ((8 <= n)%Z /\ t = JarqueBera)).
  { intros t. unfold st, test_normality.
    rewrite !guarded_test_calls. cbn [fst].
    rewrite andb_true_iff, !Z.geb_le, Z.leb_le. fold n.
    rewrite elem_of_nil. tauto. }
  assert (Hlookup : forall k, st.2 !! k =
            if (n >=? 8)%Z && bool_decide (k = "Jarque-Bera")
            then Some (entry (jarque_bera data))
            else if (n >=? 8)%Z && bool_decide (k = "D'Agostino K²")
            then Some (entry (normaltest data))
            else if ((n >=? 3)%Z && (n <=? 5000)%Z)
                    && bool_decide (k = "Shapiro-Wilk")
            then Some (entry (shapiro data))
            else None).
  { intros k. unfold st, test_normality.
    rewrite !guarded_test_lookup. cbn [snd]. fold n.
    rewrite lookup_empty. reflexivity. }
  assert (Hshapiro : Shapiro ∈ st.1 <-> (3 <= n <= 5000)%Z).
  { rewrite Hcalls. intuition (try discriminate; auto). }
  assert (Hnormal : Normaltest ∈ st.1 <-> (8 <= n)%Z).
  { rewrite Hcalls. intuition (try discriminate; auto). }
  assert (Hjarque : JarqueBera ∈ st.1 <-> (8 <= n)%Z).
  { rewrite Hcalls. intuition (try discriminate; auto). }
  split; [exact Hshapiro|]. split; [exact Hnormal|]. split; [exact Hjarque|].
  split; [|split; [|split]].
  - intros e. rewrite Hlookup. cbn. rewrite !andb_false_r, !andb_true_r.
    rewrite Hshapiro.
    destruct ((n >=? 3)%Z && (n <=? 5000)%Z) eqn:Hg.
    + apply andb_true_iff in Hg. split; [intros [= <-]; split; [lia | reflexivity]|].
      intros [_ ->]. reflexivity.
    + apply andb_false_iff in Hg. split; [discriminate | intros [Hn _]; lia].
  - intros e. rewrite Hlookup. cbn. rewrite !andb_false_r, !andb_true_r.
    rewrite Hnormal.
    destruct (n >=? 8)%Z eqn:Hg.
    + split; [intros [= <-]; split; [lia | reflexivity]|].
      intros [_ ->]. reflexivity.
    + split; [|intros [Hn _]; lia].
      destruct ((n >=? 3)%Z && (n <=? 5000)%Z); discriminate.
  - intros e. rewrite Hlookup. cbn. rewrite !andb_true_r.
    rewrite Hjarque.
    destruct (n >=? 8)%Z eqn:Hg.
    + split; [intros [= <-]; split; [lia | reflexivity]|].
      intros [_ ->]. reflexivity.
    + split; [|intros [Hn _]; lia].
      cbn. destruct ((n >=? 3)%Z && (n <=? 5000)%Z); discriminate.
  - intros key [e He]. rewrite Hlookup in He.
    repeat case_bool_decide; auto.
    rewrite !andb_false_r in He. discriminate.
Qed.

End Checker.

(** ** The group partitioner *)

Section Partitioner.

Context {F : Type} `{Float64 F}.
Variable shapiro kstest_norm : list F -> F * F.

Lemma class_measurements_missing (df : gmap string (list (cell F)))
    (class_col value measurement_col : string) :
  df !! class_col = None ->
  class_measurements df class_col value measurement_col
  = Raise (KeyError class_col).
Proof.
  intros Hmissing. unfold class_measurements, getitem.
  rewrite Hmissing. reflexivity.
Qed.

(** C7: on a frame without the grouping column, validate_sef_framework
    fails with the error that names the missing column (pandas' KeyError),
    and with nothing else. *)
Theorem C7_missing_grouping_column (df : gmap string (list (cell F)))
    (class_a_col class_a_value class_b_value measurement_col : string) :
  df !! class_a_col = None ->
  validate_sef_framework shapiro kstest_norm df class_a_col
    class_a_value class_b_value measurement_col
  = Raise (KeyError class_a_col).
Proof.
  intros Hmissing. unfold validate_sef_framework.
  rewrite (class_measurements_missing df class_a_col class_a_value)
    by assumption.
  reflexivity.
Qed.

(** X13: the same holds for the multi-domain validator: without the
    grouping column validate_domain_sef fails with the KeyError of that
    column. *)
Lemma validate_domain_sef_missing_column (df : gmap string (list (cell F)))
    (domain_name class_col class_a class_b measurement_col : string)
    (expected_sef_range : F * F) :
  df !! class_col = None ->
  validate_domain_sef shapiro kstest_norm df domain_name class_col
    class_a class_b measurement_col expected_sef_range
  = Raise (KeyError class_col).
Proof.
  intros Hmissing. unfold validate_domain_sef.
  rewrite (class_measurements_missing df class_col class_a) by assumption.
  reflexivity.
Qed.

End Partitioner.

Lemma C7_witness :
  let df : gmap string (list (cell npfloat)) :=
    {[ "accuracy" := [CNum (Fin 1); CNum (Fin 2)] ]} in
  df !! "hardware_type" = None /\
  validate_sef_framework constant_test constant_test df
    "hardware_type" "GPU" "TPU" "accuracy"
  = Raise (KeyError "hardware_type").
Proof.
  split; [reflexivity|].
  apply C7_missing_grouping_column. reflexivity.
Defined.

(** ** The parameter estimator *)

Section Estimator.

Local Open Scope R_scope.

Lemma dropna_floats_Fin (l : list R) :
  dropna_floats (map Fin l) = map Fin l.
Proof.
  unfold dropna_floats. induction l as [| x l IH]; [reflexivity|].
  cbn. f_equal. exact IH.
Qed.

Lemma fold_left_add_Fin (l : list R) (acc : R) :
  fold_left fadd (map Fin l) (Fin acc) = Fin (acc + Rsum l).
Proof.
  revert acc. induction l as [| x l IH]; intros acc; cbn.
  - f_equal. ring.
  - rewrite IH. f_equal. ring.
Qed.

Lemma fsum_Fin (l : list R) : fsum (map Fin l) = Fin (Rsum l).
Proof.
  unfold fsum. cbn [fZ npfloat_Float64].
  rewrite fold_left_add_Fin. f_equal. ring.
Qed.

Lemma len_Fin (l : list R) : IZR (len (map Fin l)) = INR (length l).
Proof. unfold len. rewrite length_map. symmetry. apply INR_IZR_INZ. Qed.

Lemma mean_Fin (l : list R) :
  l <> [] -> mean (map Fin l) = Fin (Rmean l).
Proof.
  intros Hl. unfold mean, Rmean. rewrite dropna_floats_Fin, fsum_Fin.
  cbn [fdiv fZ npfloat_Float64]. rewrite len_Fin.
  apply div_Fin. apply not_0_INR. destruct l; [contradiction | discriminate].
Qed.

Lemma var_Fin (l : list R) :
  (2 <= length l)%nat -> var (map Fin l) = Fin (Rvar l).
Proof.
  intros Hl. unfold var, Rvar, Rmean. rewrite dropna_floats_Fin, fsum_Fin.
  assert (Hlen : (len (map Fin l) <=? 1)%Z = false).
  { apply Z.leb_gt. unfold len. rewrite length_map. lia. }
  rewrite Hlen.
  assert (Hn : 2 <= INR (length l)).
  { replace 2 with (INR 2) by reflexivity. apply le_INR. exact Hl. }
  cbn [fdiv fsub fmul fZ npfloat_Float64].
  rewrite minus_IZR, len_Fin, div_Fin by lra.
  rewrite map_map.
  cbn [Ideal.sub Ideal.neg Ideal.add Ideal.mul].
  rewrite <- (map_map (fun x => (Rsum l / INR (length l) + - x)
                                * (Rsum l / INR (length l) + - x)) Fin).
  rewrite fsum_Fin. apply div_Fin. lra.
Qed.

Lemma Rsum_squares_nonneg (m : R) (l : list R) :
  0 <= Rsum (map (fun x => (m - x) * (m - x)) l).
Proof.
  induction l as [| x l IH]; cbn; [lra|].
  pose proof (Rle_0_sqr (m - x)) as Hsq. unfold Rsqr in Hsq. lra.
Qed.

Lemma Rvar_nonneg (l : list R) : (2 <= length l)%nat -> 0 <= Rvar l.
Proof.
  intros Hl. unfold Rvar.
  assert (Hn : 2 <= INR (length l)).
  { replace 2 with (INR 2) by reflexivity. apply le_INR. exact Hl. }
  apply Rmult_le_pos; [apply Rsum_squares_nonneg|].
  apply Rlt_le, Rinv_0_lt_compat. lra.
Qed.

Lemma estimate_parameters_Fin (a b : list R) :
  (2 <= length a)%nat -> (2 <= length b)%nat -> 0 < Rvar a ->
  estimate_parameters (map Fin a) (map Fin b) =
  {| mean_a := Fin (Rmean a); mean_b := Fin (Rmean b);
     var_a := Fin (Rvar a); var_b := Fin (Rvar b);
     std_a := Fin (sqrt (Rvar a)); std_b := Fin (sqrt (Rvar b));
     est_kappa := Fin (Rvar b / Rvar a);
     est_delta := Fin (Rabs (Rmean a - Rmean b) / sqrt (Rvar a)) |}.
Proof.
  intros Ha Hb Hvar. unfold estimate_parameters.
  pose proof (Rvar_nonneg b Hb) as Hvarb.
  pose proof (sqrt_lt_R0 (Rvar a) Hvar) as Hstd.
  rewrite !mean_Fin by (intros ->; cbn in *; lia).
  rewrite !var_Fin by assumption.
  cbn [fsqrt fdiv fsub fabs npfloat_Float64].
  rewrite !sqrt_Fin by lra.
  cbn [Ideal.sub Ideal.neg Ideal.add Ideal.abs].
  rewrite !div_Fin by lra.
  reflexivity.
Qed.

(** With no spread in group A the two divisions are divisions by zero:
    numpy returns an infinity, or [nan] for [0/0]. *)
Lemma estimate_parameters_degenerate (a b : list R) :
  (2 <= length a)%nat -> (2 <= length b)%nat -> Rvar a = 0 ->
  est_kappa (estimate_parameters (map Fin a) (map Fin b))
    = (if Ideal.Rltb 0 (Rvar b) then PInf else NaN) /\
  est_delta (estimate_parameters (map Fin a) (map Fin b))
    = (if Ideal.Rltb 0 (Rabs (Rmean a - Rmean b)) then PInf else NaN).
Proof.
  intros Ha Hb Hvar. unfold estimate_parameters.
  pose proof (Rvar_nonneg b Hb) as Hvarb.
  pose proof (Rabs_pos (Rmean a - Rmean b)) as Habs.
  rewrite !mean_Fin by (intros ->; cbn in *; lia).
  rewrite !var_Fin by assumption.
  cbn [est_kappa est_delta fsqrt fdiv fsub fabs npfloat_Float64].
  rewrite Hvar, sqrt_Fin, sqrt_0 by lra.
  cbn [Ideal.sub Ideal.neg Ideal.add Ideal.abs Ideal.div].
  rewrite Reqb_true by reflexivity. unfold Ideal.signed_inf.
  change (Rmean a + - Rmean b) with (Rmean a - Rmean b).
  split.
  - destruct (Ideal.Rltb 0 (Rvar b)); [reflexivity|].
    rewrite Rltb_false by lra. reflexivity.
  - destruct (Ideal.Rltb 0 (Rabs _)); [reflexivity|].
    rewrite Rltb_false by lra. reflexivity.
Qed.

(** C4, as stated, fails: with mean_A = 0 < mean_B = 4 and var_A = 4 the
    estimator yields delta = 2, not (0 - 4) / 2 = -2. *)
Lemma C4_counterexample :
  let a := [3; -3; 3; -3; 0; 0; 0; 0; 0; 0] in
  let b := [7; 1; 7; 1; 4; 4; 4; 4; 4; 4] in
  est_delta (estimate_parameters (map Fin a) (map Fin b))
  <> Fin ((Rmean a - Rmean b) / sqrt (Rvar a)).
Proof.
  intros a b.
  assert (Hma : Rmean a = 0) by (unfold Rmean, a; cbn; lra).
  assert (Hmb : Rmean b = 4) by (unfold Rmean, b; cbn; lra).
  assert (Hva : Rvar a = 2 * 2).
  { unfold Rvar. rewrite Hma. unfold a. cbn. lra. }
  rewrite estimate_parameters_Fin by (cbn; try lia; rewrite Hva; lra).
  cbn [est_delta]. rewrite Hma, Hmb, Hva, sqrt_square by lra.
  rewrite (Rabs_left (0 - 4)) by lra.
  intros [= Heq]. lra.
Qed.

(** C4 (amended): with at least two observations in each group and
    var_A > 0, the estimator's delta is the absolute difference of the
    means divided by sqrt(var_A); it is never negative. *)
Theorem C4_delta_is_unsigned (a b : list R) :
  (2 <= length a)%nat -> (2 <= length b)%nat -> 0 < Rvar a ->
  est_delta (estimate_parameters (map Fin a) (map Fin b))
    = Fin (Rabs (Rmean a - Rmean b) / sqrt (Rvar a)) /\
  0 <= Rabs (Rmean a - Rmean b) / sqrt (Rvar a).
Proof.
  intros Ha Hb Hvar. split.
  - rewrite estimate_parameters_Fin by assumption. reflexivity.
  - apply Rmult_le_pos; [apply Rabs_pos|].
    apply Rlt_le, Rinv_0_lt_compat, sqrt_lt_R0. exact Hvar.
Qed.

Lemma C4_witness :
  let a := [1; 3] in
  let b := [4; 8] in
  ((2 <= length a)%nat /\ (2 <= length b)%nat /\ 0 < Rvar a) /\
  est_delta (estimate_parameters (map Fin a) (map Fin b))
    = Fin (Rabs (Rmean a - Rmean b) / sqrt (Rvar a)).
Proof.
  intros a b.
  assert (Hva : 0 < Rvar a) by (unfold Rvar, Rmean, a; cbn; lra).
  split; [split; [cbn; lia | split; [cbn; lia | exact Hva]]|].
  refine (proj1 (C4_delta_is_unsigned a b _ _ Hva)); cbn; lia.
Defined.

End Estimator.

(** ** The validators on small and on degenerate groups *)

Section Validators.

Context {F : Type} `{Float64 F}.
Variable shapiro kstest_norm : list F -> F * F.

Lemma float_values_length (s : list (cell F)) (v : list F) :
  float_values s = Return v -> length v = length s.
Proof.
  revert v. induction s as [| c s IH]; intros v Hv; cbn in Hv.
  - injection Hv as <-. reflexivity.
  - destruct c as [x | x]; [discriminate|].
    destruct (float_values s) as [w | e]; [|discriminate].
    injection Hv as <-. cbn. f_equal. apply IH. reflexivity.
Qed.

(** The sample-size gate: below ten observations in either group the
    validator prints its message and returns [None]. *)
Lemma validate_sef_framework_small (df : gmap string (list (cell F)))
    (class_a_col class_a_value class_b_value measurement_col : string)
    (class_a class_b : list (cell F)) :
  class_measurements df class_a_col class_a_value measurement_col
    = Return class_a ->
  class_measurements df class_a_col class_b_value measurement_col
    = Return class_b ->
  (len class_a < 10 \/ len class_b < 10)%Z ->
  validate_sef_framework shapiro kstest_norm df class_a_col
    class_a_value class_b_value measurement_col
  = Return None.
Proof.
  intros Ha Hb Hsmall. unfold validate_sef_framework.
  rewrite Ha, Hb. cbn [mbind result_bind].
  replace ((len class_a <? 10)%Z || (len class_b <? 10)%Z) with true;
    [reflexivity|].
  symmetry. apply orb_true_iff.
  destruct Hsmall; [left | right]; apply Z.ltb_lt; assumption.
Qed.

(** Past the gate, the report carries the estimator's parameters and the
    SEF at the assumed correlation 0.2. *)
Lemma validate_sef_framework_report (df : gmap string (list (cell F)))
    (class_a_col class_a_value class_b_value measurement_col : string)
    (class_a class_b : list (cell F)) (a b : list F) :
  class_measurements df class_a_col class_a_value measurement_col
    = Return class_a ->
  class_measurements df class_a_col class_b_value measurement_col
    = Return class_b ->
  (10 <= len class_a)%Z -> (10 <= len class_b)%Z ->
  float_values class_a = Return a -> float_values class_b = Return b ->
  exists r : sef_report,
    validate_sef_framework shapiro kstest_norm df class_a_col
      class_a_value class_b_value measurement_col
    = Return (Some r) /\
    kappa r = est_kappa (estimate_parameters a b) /\
    delta r = est_delta (estimate_parameters a b) /\
    rho r = fdec 2 1 /\
    sef r = calculate_sef (est_kappa (estimate_parameters a b)) (fdec 2 1).
Proof.
  intros Ha Hb Hna Hnb Hnuma Hnumb. unfold validate_sef_framework.
  rewrite Ha, Hb. cbn [mbind result_bind].
  replace ((len class_a <? 10)%Z || (len class_b <? 10)%Z) with false.
  - rewrite Hnuma, Hnumb. cbn [mbind result_bind].
    eexists. split; [reflexivity|]. cbn. repeat split.
  - symmetry. apply orb_false_iff. split; apply Z.ltb_ge; assumption.
Qed.

End Validators.

Section Degenerate.

Local Open Scope R_scope.

Variable shapiro kstest_norm : list npfloat -> npfloat * npfloat.

Lemma calculate_sef_nan (rho : npfloat) : calculate_sef NaN rho = NaN.
Proof. reflexivity. Qed.

Lemma assumed_rho : fdec 2 1 = Fin (2 / 10).
Proof. reflexivity. Qed.

(** At an infinite variance ratio the denominator is [inf - inf]. *)
Lemma calculate_sef_inf : calculate_sef PInf (Fin (2 / 10)) = NaN.
Proof.
  unfold calculate_sef.
  cbn [fadd fsub fmul fdiv fsqrt fle fZ finf npfloat_Float64].
  cbn [Ideal.add Ideal.sqrt Ideal.mul]. unfold Ideal.signed_inf.
  rewrite (Rltb_true 0 2) by lra.
  cbn [Ideal.mul]. unfold Ideal.signed_inf.
  rewrite (Rltb_true 0 (2 / 10)) by lra. reflexivity.
Qed.

(** C6 (amended): the validator never raises on account of its samples.
    With fewer than ten valid observations in a group (so also with fewer
    than two) it returns [None]; with ten or more in each group and
    var_A = 0 it returns a report, whose kappa is +inf (or nan when var_B
    is 0 too) and whose SEF is nan. *)
Theorem C6_small_or_degenerate_groups (df : gmap string (list (cell npfloat)))
    (class_a_col class_a_value class_b_value measurement_col : string)
    (class_a class_b : list (cell npfloat)) :
  class_measurements df class_a_col class_a_value measurement_col
    = Return class_a ->
  class_measurements df class_a_col class_b_value measurement_col
    = Return class_b ->
  ((len class_a < 10 \/ len class_b < 10)%Z ->
   validate_sef_framework shapiro kstest_norm df class_a_col
     class_a_value class_b_value measurement_col
   = Return None) /\
  (forall a b : list R,
     (10 <= len class_a)%Z -> (10 <= len class_b)%Z ->
     float_values class_a = Return (map Fin a) ->
     float_values class_b = Return (map Fin b) ->
     Rvar a = 0 ->
     exists r : sef_report,
       validate_sef_framework shapiro kstest_norm df class_a_col
         class_a_value class_b_value measurement_col
       = Return (Some r) /\
       kappa r = (if Ideal.Rltb 0 (Rvar b) then PInf else NaN) /\
       sef r = NaN).
Proof.
  intros Ha Hb. split.
  - apply validate_sef_framework_small; assumption.
  - intros a b Hna Hnb Hnuma Hnumb Hvar.
    destruct (validate_sef_framework_report shapiro kstest_norm df
                class_a_col class_a_value class_b_value measurement_col
                class_a class_b (map Fin a) (map Fin b)
                Ha Hb Hna Hnb Hnuma Hnumb)
      as (r & Hr & Hkappa & _ & _ & Hsef).
    assert (Hla : (2 <= length a)%nat).
    { apply float_values_length in Hnuma. rewrite length_map in Hnuma.
      unfold len in Hna. lia. }
    assert (Hlb : (2 <= length b)%nat).
    { apply float_values_length in Hnumb. rewrite length_map in Hnumb.
      unfold len in Hnb. lia. }
    destruct (estimate_parameters_degenerate a b Hla Hlb Hvar) as [Hk _].
    exists r. split; [exact Hr|]. split; [congruence|].
    rewrite Hsef, Hk, assumed_rho.
    destruct (Ideal.Rltb 0 (Rvar b));
      [apply calculate_sef_inf | apply calculate_sef_nan].
Qed.

End Degenerate.

Lemma degenerate_frame_groups :
  class_measurements degenerate_frame "group" "A" "value"
    = Return (map (fun x => CNum (Fin x)) (replicate 10 5%R)) /\
  class_measurements degenerate_frame "group" "B" "value"
    = Return (map (fun x => CNum (Fin x))
                  [7; 1; 7; 1; 4; 4; 4; 4; 4; 4]%R).
Proof. split; reflexivity. Qed.

Lemma float_values_Fin (l : list R) :
  float_values (map (fun x => CNum (Fin x)) l) = Return (map Fin l).
Proof.
  induction l as [| x l IH]; [reflexivity|].
  cbn. rewrite IH. reflexivity.
Qed.

Lemma Rvar_constant : Rvar (replicate 10 5%R) = 0%R.
Proof.
  assert (Hmean : Rmean (replicate 10 5%R) = 5%R) by (unfold Rmean; cbn; lra).
  unfold Rvar. rewrite Hmean. cbn. field.
Qed.

(** C6, as stated, fails: on the frame above var_A = 0, and the validator
    raises nothing: it returns a report, with kappa = +inf. *)
Lemma C6_counterexample :
  exists r : sef_report,
    validate_sef_framework constant_test constant_test degenerate_frame
      "group" "A" "B" "value"
    = Return (Some r) /\
    kappa r = PInf.
Proof.
  destruct degenerate_frame_groups as [Ha Hb].
  destruct (validate_sef_framework_report constant_test constant_test
              degenerate_frame "group" "A" "B" "value" _ _
              (map Fin (replicate 10 5%R))
              (map Fin [7; 1; 7; 1; 4; 4; 4; 4; 4; 4]%R) Ha Hb)
    as (r & Hr & Hkappa & _);
    [unfold len; rewrite length_map; cbn; lia
    |unfold len; rewrite length_map; cbn; lia
    |apply float_values_Fin | apply float_values_Fin |].
  exists r. split; [exact Hr|]. rewrite Hkappa.
  destruct (estimate_parameters_degenerate
              (replicate 10 5%R) [7; 1; 7; 1; 4; 4; 4; 4; 4; 4]%R
              ltac:(cbn; lia) ltac:(cbn; lia) Rvar_constant) as [Hk _].
  rewrite Hk, Rltb_true; [reflexivity|].
  assert (Hmean : Rmean [7; 1; 7; 1; 4; 4; 4; 4; 4; 4]%R = 4%R)
    by (unfold Rmean; cbn; lra).
  unfold Rvar. rewrite Hmean. cbn. lra.
Qed.

Lemma C6_witness :
  let df : gmap string (list (cell npfloat)) :=
    {[ "group" := [CStr "A"; CStr "B"; CStr "B"];
       "value" := [CNum (Fin 1); CNum (Fin 2); CNum (Fin 4)] ]} in
  (class_measurements df "group" "A" "value" = Return [CNum (Fin 1)] /\
   class_measurements df "group" "B" "value"
     = Return [CNum (Fin 2); CNum (Fin 4)] /\
   (len [CNum (Fin 1)] < 10)%Z) /\
  validate_sef_framework constant_test constant_test df "group" "A" "B" "value"
  = Return None.
Proof.
  intros df.
  assert (Ha : class_measurements df "group" "A" "value"
               = Return [CNum (Fin 1)]) by reflexivity.
  assert (Hb : class_measurements df "group" "B" "value"
               = Return [CNum (Fin 2); CNum (Fin 4)]) by reflexivity.
  assert (Hsmall : (len [CNum (Fin 1)] < 10)%Z) by (unfold len; cbn; lia).
  split; [split; [exact Ha | split; [exact Hb | exact Hsmall]]|].
  exact (proj1 (C6_small_or_degenerate_groups constant_test constant_test
                  df "group" "A" "B" "value" _ _ Ha Hb) (or_introl Hsmall)).
Defined.

(** ** The concrete scenario *)

Section Scenario.

Local Open Scope R_scope.

Lemma scenario_statistics :
  Rmean [10; 12; 14; 16; 18] = 14 /\ Rvar [10; 12; 14; 16; 18] = 10 /\
  Rmean [5; 25; 45] = 25 /\ Rvar [5; 25; 45] = 400.
Proof.
  assert (Ha : Rmean [10; 12; 14; 16; 18] = 14) by (unfold Rmean; cbn; lra).
  assert (Hb : Rmean [5; 25; 45] = 25) by (unfold Rmean; cbn; lra).
  repeat split; try assumption.
  - unfold Rvar. rewrite Ha. cbn. lra.
  - unfold Rvar. rewrite Hb. cbn. lra.
Qed.

Lemma scenario_parameters :
  let p := estimate_parameters (map Fin [10; 12; 14; 16; 18])
                               (map Fin [5; 25; 45]) in
  est_kappa p = Fin 40 /\ est_delta p = Fin (Rabs (14 - 25) / sqrt 10).
Proof.
  destruct scenario_statistics as (Hma & Hva & Hmb & Hvb).
  intros p. unfold p.
  rewrite estimate_parameters_Fin by (cbn; try lia; rewrite Hva; lra).
  cbn [est_kappa est_delta]. rewrite Hma, Hva, Hmb, Hvb.
  split; [f_equal; lra | reflexivity].
Qed.

Lemma sqrt_10_bounds : 31622 / 10000 < sqrt 10 < 31623 / 10000.
Proof.
  pose proof (sqrt_sqrt 10 ltac:(lra)) as Hsq.
  pose proof (sqrt_pos 10) as Hpos.
  split; nra.
Qed.

(** C3, as stated, fails: the estimator's delta is not negative, and the
    calculator at rho = 0 does not return 41. *)
Lemma C3_counterexample :
  let p := estimate_parameters (map Fin [10; 12; 14; 16; 18])
                               (map Fin [5; 25; 45]) in
  ~ (est_kappa p = Fin 40 /\
     est_delta p = Fin ((14 - 25) / sqrt 10) /\
     calculate_sef (est_kappa p) (Fin 0) = Fin 41).
Proof.
  intros p (Hkappa & _ & Hsef).
  rewrite Hkappa, calculate_sef_finite in Hsef by lra.
  unfold sef_denominator in Hsef. rewrite Rleb_false in Hsef by lra.
  injection Hsef as Hsef.
  assert (Hone : (1 + 40) / (1 + 40 - 2 * sqrt 40 * 0) = 1) by (field; lra).
  lra.
Qed.

(** C3 (amended): on Group A = [10, 12, 14, 16, 18] and Group B =
    [5, 25, 45] the estimator's statements give kappa = 40 and
    delta = |14 - 25| / sqrt(10), about +3.479, and the calculator at
    rho = 0 returns 1; validate_sef_framework itself returns None on a
    frame made of these two groups, which have fewer than ten samples. *)
Theorem C3_concrete_scenario
    (shapiro kstest_norm : list npfloat -> npfloat * npfloat) :
  let p := estimate_parameters (map Fin [10; 12; 14; 16; 18])
                               (map Fin [5; 25; 45]) in
  est_kappa p = Fin 40 /\
  est_delta p = Fin (Rabs (14 - 25) / sqrt 10) /\
  3478 / 1000 < Rabs (14 - 25) / sqrt 10 < 3479 / 1000 /\
  calculate_sef (est_kappa p) (Fin 0) = Fin 1 /\
  validate_sef_framework shapiro kstest_norm scenario_frame
    "group" "A" "B" "value" = Return None.
Proof.
  intros p. destruct scenario_parameters as [Hkappa Hdelta]. fold p in Hkappa, Hdelta.
  split; [exact Hkappa|]. split; [exact Hdelta|]. split; [|split].
  - rewrite (Rabs_left (14 - 25)) by lra.
    pose proof sqrt_10_bounds as [Hlo Hhi].
    replace (- (14 - 25)) with 11 by ring.
    assert (Hinv : 11 / sqrt 10 * sqrt 10 = 11) by (field; lra).
    split; nra.
  - rewrite Hkappa, calculate_sef_finite by lra. unfold sef_denominator.
    rewrite Rleb_false by lra. f_equal. field.
  - apply (validate_sef_framework_small shapiro kstest_norm scenario_frame
             "group" "A" "B" "value"
             (map (fun x => CNum (Fin x)) [10; 12; 14; 16; 18])
             (map (fun x => CNum (Fin x)) [5; 25; 45]));
      [reflexivity | reflexivity | left; unfold len; cbn; lia].
Qed.

End Scenario.

(** * Further properties *)

(** ** The SEF calculator *)

Section CalculatorMore.

Local Open Scope R_scope.

Lemma sef_denominator_pos (kappa rho : R) :
  0 <= kappa -> rho < 1 -> 0 < sef_denominator kappa rho.
Proof.
  intros Hk Hr. unfold sef_denominator.
  pose proof (sqrt_pos kappa) as Hs.
  pose proof (sqrt_sqrt kappa Hk) as Hss.
  set (s := sqrt kappa) in *.
  assert (Hsq : 0 <= (1 - s) * (1 - s)) by apply Rle_0_sqr.
  assert (Hcross : 0 <= s * (1 - rho)) by (apply Rmult_le_pos; lra).
  destruct (Req_dec s 0) as [Hz | Hnz]; [rewrite Hz in *; lra|].
  assert (Hcross' : 0 < s * (1 - rho)) by (apply Rmult_lt_0_compat; lra).
  lra.
Qed.

(** X1: exchanging the two groups turns kappa into 1/kappa and leaves
    the result of calculate_sef unchanged, for every kappa > 0 and every
    finite rho. *)
Theorem X1_sef_invariant_under_exchange (kappa rho : R) :
  0 < kappa ->
  calculate_sef (Fin (1 / kappa)) (Fin rho) = calculate_sef (Fin kappa) (Fin rho).
Proof.
  intros Hk.
  assert (Hinv : 0 < 1 / kappa) by (apply Rdiv_lt_0_compat; lra).
  pose proof (sqrt_lt_R0 kappa Hk) as Hs.
  pose proof (sqrt_sqrt kappa (Rlt_le _ _ Hk)) as Hss.
  assert (Hsqrt : sqrt (1 / kappa) = 1 / sqrt kappa).
  { rewrite sqrt_div_alt by assumption. rewrite sqrt_1. reflexivity. }
  assert (Hden : sef_denominator (1 / kappa) rho
                 = sef_denominator kappa rho / kappa).
  { unfold sef_denominator. rewrite Hsqrt.
    set (s := sqrt kappa) in *. rewrite <- Hss. field. lra. }
  rewrite !calculate_sef_finite by lra. rewrite Hden.
  unfold Ideal.Rleb.
  destruct (Rle_dec (sef_denominator kappa rho) 0) as [Hle | Hgt];
    destruct (Rle_dec (sef_denominator kappa rho / kappa) 0) as [Hle' | Hgt'].
  - reflexivity.
  - exfalso. apply Hgt'. apply Rmult_le_reg_r with kappa; [assumption|].
    replace (sef_denominator kappa rho / kappa * kappa)
      with (sef_denominator kappa rho) by (field; lra). lra.
  - exfalso. apply Hgt.
    replace (sef_denominator kappa rho)
      with (sef_denominator kappa rho / kappa * kappa) by (field; lra).
    replace 0 with (0 * kappa) by ring.
    apply Rmult_le_compat_r; lra.
  - f_equal. field. split; lra.
Qed.

Lemma X1_witness :
  0 < 4 /\ calculate_sef (Fin (1 / 4)) (Fin (3 / 10))
           = calculate_sef (Fin 4) (Fin (3 / 10)).
Proof. split; [lra | apply X1_sef_invariant_under_exchange; lra]. Defined.

(** X2: for kappa >= 0 and 0 <= rho < 1 the guard never fires and the
    result lies between 1 and 1/(1 - rho). *)
Theorem X2_sef_bounds (kappa rho : R) :
  0 <= kappa -> 0 <= rho < 1 ->
  exists s : R,
    calculate_sef (Fin kappa) (Fin rho) = Fin s /\ 1 <= s <= 1 / (1 - rho).
Proof.
  intros Hk Hr.
  pose proof (sef_denominator_pos kappa rho Hk ltac:(lra)) as Hd.
  exists ((1 + kappa) / sef_denominator kappa rho). split.
  - rewrite calculate_sef_finite by assumption.
    rewrite Rleb_false by assumption. reflexivity.
  - unfold sef_denominator in *.
    pose proof (sqrt_pos kappa) as Hs.
    pose proof (sqrt_sqrt kappa Hk) as Hss.
    set (s := sqrt kappa) in *. set (d := 1 + kappa - 2 * s * rho) in *.
    assert (Hcross : 0 <= s * rho) by (apply Rmult_le_pos; lra).
    assert (Hsq : 0 <= rho * ((1 - s) * (1 - s))).
    { apply Rmult_le_pos; [lra | apply Rle_0_sqr]. }
    split.
    + apply (Rmult_le_reg_r d); [assumption|].
      replace ((1 + kappa) / d * d) with (1 + kappa) by (field; lra).
      unfold d. lra.
    + apply (Rmult_le_reg_r (d * (1 - rho))); [apply Rmult_lt_0_compat; lra|].
      replace ((1 + kappa) / d * (d * (1 - rho)))
        with ((1 + kappa) * (1 - rho)) by (field; lra).
      replace (1 / (1 - rho) * (d * (1 - rho))) with d by (field; lra).
      unfold d. nra.
Qed.

Lemma X2_witness :
  (0 <= 4 /\ 0 <= 1 / 5 < 1) /\
  exists s : R,
    calculate_sef (Fin 4) (Fin (1 / 5)) = Fin s /\ 1 <= s <= 1 / (1 - 1 / 5).
Proof. split; [lra | apply X2_sef_bounds; lra]. Defined.

(** X3: at equal variances (kappa = 1) the result is 1/(1 - rho) for
    every rho < 1. *)
Theorem X3_sef_at_equal_variances (rho : R) :
  rho < 1 -> calculate_sef (Fin 1) (Fin rho) = Fin (1 / (1 - rho)).
Proof.
  intros Hr. rewrite calculate_sef_finite by lra.
  unfold sef_denominator. rewrite sqrt_1.
  rewrite Rleb_false by lra. f_equal. field. lra.
Qed.

Lemma X3_witness :
  1 / 2 < 1 /\ calculate_sef (Fin 1) (Fin (1 / 2)) = Fin (1 / (1 - 1 / 2)).
Proof. split; [lra | apply X3_sef_at_equal_variances; lra]. Defined.

(** X4: for kappa > 0 and a negative correlation the result is a finite
    number strictly between 0 and 1: the reported "enhancement" is a loss. *)
Theorem X4_sef_below_one_for_negative_rho (kappa rho : R) :
  0 < kappa -> rho < 0 ->
  exists s : R, calculate_sef (Fin kappa) (Fin rho) = Fin s /\ 0 < s < 1.
Proof.
  intros Hk Hr.
  pose proof (sef_denominator_pos kappa rho ltac:(lra) ltac:(lra)) as Hd.
  exists ((1 + kappa) / sef_denominator kappa rho). split.
  - rewrite calculate_sef_finite by lra.
    rewrite Rleb_false by assumption. reflexivity.
  - unfold sef_denominator in *.
    pose proof (sqrt_lt_R0 kappa Hk) as Hs.
    set (d := 1 + kappa - 2 * sqrt kappa * rho) in *.
    assert (Hcross : 0 < sqrt kappa * - rho) by (apply Rmult_lt_0_compat; lra).
    split; [apply Rdiv_lt_0_compat; lra|].
    apply (Rmult_lt_reg_r d); [assumption|].
    replace ((1 + kappa) / d * d) with (1 + kappa) by (field; lra).
    unfold d. lra.
Qed.

Lemma X4_witness :
  (0 < 4 /\ -1 / 2 < 0) /\
  exists s : R, calculate_sef (Fin 4) (Fin (-1 / 2)) = Fin s /\ 0 < s < 1.
Proof. split; [lra | apply X4_sef_below_one_for_negative_rho; lra]. Defined.

Lemma X5_witness :
  (0 < 1 /\ -1 <= 1 <= 1) /\ calculate_sef (Fin 1) (Fin 1) = PInf.
Proof.
  split; [lra|].
  apply (calculate_sef_infinite 1 1); [lra | lra | split; reflexivity].
Defined.

(** X6: for kappa > 0 the result grows with rho, as long as the
    denominator stays positive. *)
Theorem X6_sef_monotone_in_rho (kappa rho1 rho2 : R) :
  0 < kappa -> rho1 <= rho2 -> 0 < 1 + kappa - 2 * sqrt kappa * rho2 ->
  exists s1 s2 : R,
    calculate_sef (Fin kappa) (Fin rho1) = Fin s1 /\
    calculate_sef (Fin kappa) (Fin rho2) = Fin s2 /\
    s1 <= s2.
Proof.
  intros Hk Hle Hd2.
  pose proof (sqrt_lt_R0 kappa Hk) as Hs.
  assert (Hmono : sqrt kappa * rho1 <= sqrt kappa * rho2)
    by (apply Rmult_le_compat_l; lra).
  set (d1 := 1 + kappa - 2 * sqrt kappa * rho1).
  set (d2 := 1 + kappa - 2 * sqrt kappa * rho2) in *.
  assert (Hd1 : 0 < d1) by (unfold d1, d2 in *; lra).
  exists ((1 + kappa) / d1), ((1 + kappa) / d2). repeat split.
  - rewrite calculate_sef_finite by lra. unfold sef_denominator. fold d1.
    rewrite Rleb_false by assumption. reflexivity.
  - rewrite calculate_sef_finite by lra. unfold sef_denominator. fold d2.
    rewrite Rleb_false by assumption. reflexivity.
  - unfold Rdiv. apply Rmult_le_compat_l; [lra|].
    apply Rinv_le_contravar; [assumption | unfold d1, d2; lra].
Qed.

Lemma X6_witness :
  (0 < 1 /\ 0 <= 1 / 2 /\ 0 < 1 + 1 - 2 * sqrt 1 * (1 / 2)) /\
  exists s1 s2 : R,
    calculate_sef (Fin 1) (Fin 0) = Fin s1 /\
    calculate_sef (Fin 1) (Fin (1 / 2)) = Fin s2 /\
    s1 <= s2.
Proof.
  split; [rewrite sqrt_1; lra|].
  apply X6_sef_monotone_in_rho; [lra | lra | rewrite sqrt_1; lra].
Defined.

Lemma mul_nan_r (a : npfloat) : Ideal.mul a NaN = NaN.
Proof. destruct a; reflexivity. Qed.

Lemma sub_nan_r (a : npfloat) : Ideal.sub a NaN = NaN.
Proof. destruct a; reflexivity. Qed.

Lemma div_nan_r (a : npfloat) : Ideal.div a NaN = NaN.
Proof. destruct a; reflexivity. Qed.

(** X7: a [nan] argument, and an infinite variance ratio, always give
    [nan]: the guard never reports them as +inf. *)
Theorem X7_sef_special_values (x : npfloat) (rho : R) :
  calculate_sef NaN x = NaN /\
  calculate_sef x NaN = NaN /\
  calculate_sef PInf (Fin rho) = NaN.
Proof.
  split; [reflexivity|]. split.
  - unfold calculate_sef.
    cbn [fadd fsub fmul fdiv fsqrt fle fZ finf npfloat_Float64].
    rewrite mul_nan_r, sub_nan_r, div_nan_r. reflexivity.
  - unfold calculate_sef.
    cbn [fadd fsub fmul fdiv fsqrt fle fZ finf npfloat_Float64].
    cbn [Ideal.add Ideal.sqrt Ideal.mul]. unfold Ideal.signed_inf.
    rewrite (Rltb_true 0 2) by lra.
    cbn [Ideal.mul]. unfold Ideal.signed_inf, Ideal.Rltb.
    destruct (Rlt_dec 0 rho); [reflexivity|].
    destruct (Rlt_dec rho 0); reflexivity.
Qed.

End CalculatorMore.

(** ** The validators *)

Section ValidatorsMore.

Context {F : Type} `{Float64 F}.
Variable shapiro kstest_norm : list F -> F * F.

Lemma getitem_getitem_mask (df : gmap string (list (cell F)))
    (mask : list bool) (col : string) :
  getitem (getitem_mask df mask) col
  = (s ← getitem df col; Return (select mask s)).
Proof.
  unfold getitem, getitem_mask. rewrite lookup_fmap.
  destruct (df !! col); reflexivity.
Qed.

Lemma class_measurements_present (df : gmap string (list (cell F)))
    (class_col value measurement_col : string)
    (labels column : list (cell F)) :
  df !! class_col = Some labels -> df !! measurement_col = Some column ->
  class_measurements df class_col value measurement_col
  = Return (dropna (select (series_eq labels value) column)).
Proof.
  intros Hlabels Hcolumn. unfold class_measurements.
  unfold getitem. rewrite Hlabels. cbn [mbind result_bind].
  unfold getitem_mask. rewrite lookup_fmap, Hcolumn. reflexivity.
Qed.

(** X8: when the grouping column exists and the measurement column does
    not, validate_sef_framework fails with the KeyError of the
    measurement column. *)
Theorem X8_missing_measurement_column (df : gmap string (list (cell F)))
    (class_a_col class_a_value class_b_value measurement_col : string) :
  is_Some (df !! class_a_col) -> df !! measurement_col = None ->
  validate_sef_framework shapiro kstest_norm df class_a_col
    class_a_value class_b_value measurement_col
  = Raise (KeyError measurement_col).
Proof.
  intros [labels Hlabels] Hmissing.
  unfold validate_sef_framework, class_measurements.
  unfold getitem. rewrite Hlabels. cbn [mbind result_bind].
  unfold getitem_mask. rewrite !lookup_fmap, Hmissing. reflexivity.
Qed.

Lemma select_absent (labels : list (cell F)) (value : string)
    (column : list (cell F)) :
  CStr value ∉ labels -> select (series_eq labels value) column = [].
Proof.
  revert column. induction labels as [| c labels IH]; intros column Habsent.
  - destruct column; reflexivity.
  - apply not_elem_of_cons in Habsent as [Hc Hrest].
    destruct column as [| x column]; cbn.
    + destruct c as [s | y]; [destruct (String.eqb s value)|]; reflexivity.
    + destruct c as [s | y]; [|apply IH; assumption].
      destruct (String.eqb_spec s value) as [-> | Hne]; [contradiction|].
      apply IH. assumption.
Qed.

(** X9: a label that does not occur in the grouping column is no error:
    its group is empty, and validate_sef_framework returns None (for
    either of the two labels). *)
Theorem X9_absent_label_returns_none (df : gmap string (list (cell F)))
    (class_a_col class_a_value class_b_value measurement_col : string)
    (labels column : list (cell F)) :
  df !! class_a_col = Some labels -> df !! measurement_col = Some column ->
  CStr class_a_value ∉ labels \/ CStr class_b_value ∉ labels ->
  validate_sef_framework shapiro kstest_norm df class_a_col
    class_a_value class_b_value measurement_col
  = Return None.
Proof.
  intros Hlabels Hcolumn Habsent. unfold validate_sef_framework.
  rewrite !(class_measurements_present df class_a_col _ measurement_col
              labels column Hlabels Hcolumn).
  cbn [mbind result_bind].
  destruct Habsent as [Ha | Hb].
  - rewrite (select_absent labels class_a_value column Ha). reflexivity.
  - rewrite (select_absent labels class_b_value column Hb).
    cbn. rewrite orb_true_r. reflexivity.
Qed.

Lemma applicability_bounds (n_a n_b : Z) (kappa delta p_a p_b d : F) :
  (0 <= applicability n_a n_b kappa delta p_a p_b d <= 5)%Z.
Proof.
  unfold applicability.
  repeat match goal with |- context [if ?c then _ else _] => destruct c end;
    lia.
Qed.

(** X10: every report validate_sef_framework returns has at least ten
    samples in each group, an applicability score between 0 and its
    maximum 5, the assumed correlation 0.2, the SEF of its own kappa and
    rho, and the improvement (SEF - 1) * 100. *)
Theorem X10_report_invariants (df : gmap string (list (cell F)))
    (class_a_col class_a_value class_b_value measurement_col : string)
    (r : sef_report) :
  validate_sef_framework shapiro kstest_norm df class_a_col
    class_a_value class_b_value measurement_col
  = Return (Some r) ->
  (10 <= sample_size_a r)%Z /\ (10 <= sample_size_b r)%Z /\
  (0 <= applicability_score r <= max_score r)%Z /\ max_score r = 5%Z /\
  rho r = fdec 2 1 /\
  sef r = calculate_sef (kappa r) (rho r) /\
  improvement_percent r = fmul (fsub (sef r) (fZ 1)) (fZ 100).
Proof.
  unfold validate_sef_framework.
  destruct (class_measurements df class_a_col class_a_value measurement_col)
    as [class_a | e]; [|discriminate].
  destruct (class_measurements df class_a_col class_b_value measurement_col)
    as [class_b | e]; [|discriminate].
  cbn [mbind result_bind].
  destruct ((len class_a <? 10)%Z || (len class_b <? 10)%Z) eqn:Hgate;
    [discriminate|].
  apply orb_false_iff in Hgate as [Ha Hb].
  apply Z.ltb_ge in Ha. apply Z.ltb_ge in Hb.
  destruct (float_values class_a) as [a | e]; [|discriminate].
  destruct (float_values class_b) as [b | e]; [|discriminate].
  cbn [mbind result_bind]. intros [= <-].
  cbn [sample_size_a sample_size_b applicability_score max_score rho sef
       kappa improvement_percent].
  repeat split; try assumption;
    match goal with
    | |- context [applicability ?na ?nb ?k ?d ?pa ?pb ?c] =>
        pose proof (applicability_bounds na nb k d pa pb c); lia
    end.
Qed.

End ValidatorsMore.

Lemma X8_witness :
  let df : gmap string (list (cell npfloat)) :=
    {[ "hardware_type" := [CStr "GPU"; CStr "TPU"] ]} in
  (is_Some (df !! "hardware_type") /\ df !! "accuracy" = None) /\
  validate_sef_framework constant_test constant_test df
    "hardware_type" "GPU" "TPU" "accuracy"
  = Raise (KeyError "accuracy").
Proof.
  intros df.
  assert (Hcol : is_Some (df !! "hardware_type")) by (eexists; reflexivity).
  split; [split; [exact Hcol | reflexivity]|].
  apply X8_missing_measurement_column; [exact Hcol | reflexivity].
Defined.

Lemma X9_witness :
  let labels : list (cell npfloat) := [CStr "GPU"; CStr "GPU"; CStr "CPU"] in
  let column : list (cell npfloat) := [CNum (Fin 1); CNum (Fin 2); CNum (Fin 3)] in
  let df : gmap string (list (cell npfloat)) :=
    {[ "hardware_type" := labels; "accuracy" := column ]} in
  (df !! "hardware_type" = Some labels /\ df !! "accuracy" = Some column /\
   CStr "TPU" ∉ labels) /\
  validate_sef_framework constant_test constant_test df
    "hardware_type" "GPU" "TPU" "accuracy"
  = Return None.
Proof.
  intros labels column df.
  assert (Habsent : CStr (F := npfloat) "TPU" ∉ labels).
  { unfold labels. rewrite !not_elem_of_cons.
    repeat split; try discriminate. apply not_elem_of_nil. }
  split; [split; [reflexivity | split; [reflexivity | exact Habsent]]|].
  apply (X9_absent_label_returns_none constant_test constant_test df
           "hardware_type" "GPU" "TPU" "accuracy" labels column);
    [reflexivity | reflexivity | right; exact Habsent].
Defined.

Lemma degenerate_frame_report :
  exists r : sef_report,
    validate_sef_framework constant_test constant_test degenerate_frame
      "group" "A" "B" "value"
    = Return (Some r).
Proof.
  destruct degenerate_frame_groups as [Ha Hb].
  destruct (validate_sef_framework_report constant_test constant_test
              degenerate_frame "group" "A" "B" "value" _ _
              (map Fin (replicate 10 5%R))
              (map Fin [7; 1; 7; 1; 4; 4; 4; 4; 4; 4]%R) Ha Hb)
    as (r & Hr & _);
    [unfold len; rewrite length_map; cbn; lia
    |unfold len; rewrite length_map; cbn; lia
    |apply float_values_Fin | apply float_values_Fin |].
  exists r. exact Hr.
Qed.

Lemma X10_witness :
  exists r : sef_report,
    validate_sef_framework constant_test constant_test degenerate_frame
      "group" "A" "B" "value"
    = Return (Some r) /\
    (10 <= sample_size_a r)%Z /\ (10 <= sample_size_b r)%Z.
Proof.
  destruct degenerate_frame_report as [r Hr].
  exists r. split; [exact Hr|].
  pose proof (X10_report_invariants constant_test constant_test
                degenerate_frame "group" "A" "B" "value" r Hr)
    as (Ha & Hb & _).
  split; assumption.
Defined.

Section ValidatorsIdeal.

Local Open Scope R_scope.

Variable shapiro kstest_norm : list npfloat -> npfloat * npfloat.

(** X11: on finite data with a positive variance in group A, the SEF that
    validate_sef_framework reports lies between 1 and 1.25: with the
    correlation fixed at 0.2 no data can give more. *)
Theorem X11_reported_sef_range (df : gmap string (list (cell npfloat)))
    (class_a_col class_a_value class_b_value measurement_col : string)
    (class_a class_b : list (cell npfloat)) (a b : list R) :
  class_measurements df class_a_col class_a_value measurement_col
    = Return class_a ->
  class_measurements df class_a_col class_b_value measurement_col
    = Return class_b ->
  (10 <= len class_a)%Z -> (10 <= len class_b)%Z ->
  float_values class_a = Return (map Fin a) ->
  float_values class_b = Return (map Fin b) ->
  0 < Rvar a ->
  exists (r : sef_report) (s : R),
    validate_sef_framework shapiro kstest_norm df class_a_col
      class_a_value class_b_value measurement_col
    = Return (Some r) /\
    sef r = Fin s /\ 1 <= s <= 5 / 4.
Proof.
  intros Ha Hb Hna Hnb Hnuma Hnumb Hvar.
  destruct (validate_sef_framework_report shapiro kstest_norm df
              class_a_col class_a_value class_b_value measurement_col
              class_a class_b (map Fin a) (map Fin b)
              Ha Hb Hna Hnb Hnuma Hnumb)
    as (r & Hr & _ & _ & _ & Hsef).
  assert (Hla : (2 <= length a)%nat).
  { apply float_values_length in Hnuma. rewrite length_map in Hnuma.
    unfold len in Hna. lia. }
  assert (Hlb : (2 <= length b)%nat).
  { apply float_values_length in Hnumb. rewrite length_map in Hnumb.
    unfold len in Hnb. lia. }
  pose proof (Rvar_nonneg b Hlb) as Hvarb.
  rewrite estimate_parameters_Fin in Hsef by assumption.
  cbn [est_kappa] in Hsef. rewrite assumed_rho in Hsef.
  set (k := Rvar b / Rvar a) in *.
  assert (Hk : 0 <= k).
  { unfold k. apply Rmult_le_pos; [assumption|].
    apply Rlt_le, Rinv_0_lt_compat. assumption. }
  pose proof (sqrt_pos k) as Hs.
  pose proof (sqrt_sqrt k Hk) as Hss.
  assert (Hsq : 0 <= (1 - sqrt k) * (1 - sqrt k)) by apply Rle_0_sqr.
  assert (Hd : 0 < 1 + k - 2 * sqrt k * (2 / 10)) by nra.
  rewrite calculate_sef_finite in Hsef by assumption.
  unfold sef_denominator in Hsef. rewrite Rleb_false in Hsef by assumption.
  exists r, ((1 + k) / (1 + k - 2 * sqrt k * (2 / 10))).
  split; [exact Hr|]. split; [exact Hsef|].
  set (d := 1 + k - 2 * sqrt k * (2 / 10)) in *.
  split.
  - apply (Rmult_le_reg_r d); [assumption|].
    replace ((1 + k) / d * d) with (1 + k) by (field; lra).
    unfold d. lra.
  - apply (Rmult_le_reg_r d); [assumption|].
    replace ((1 + k) / d * d) with (1 + k) by (field; lra).
    unfold d. nra.
Qed.

End ValidatorsIdeal.

Lemma X11_witness :
  exists (r : sef_report) (s : R),
    validate_sef_framework constant_test constant_test degenerate_frame
      "group" "B" "A" "value"
    = Return (Some r) /\
    sef r = Fin s /\ (1 <= s <= 5 / 4)%R.
Proof.
  destruct degenerate_frame_groups as [Ha Hb].
  apply (X11_reported_sef_range constant_test constant_test degenerate_frame
           "group" "B" "A" "value" _ _
           [7; 1; 7; 1; 4; 4; 4; 4; 4; 4]%R (replicate 10 5%R) Hb Ha).
  - unfold len. rewrite length_map. cbn. lia.
  - unfold len. rewrite length_map. cbn. lia.
  - apply float_values_Fin.
  - apply float_values_Fin.
  - assert (Hmean : Rmean [7; 1; 7; 1; 4; 4; 4; 4; 4; 4]%R = 4%R)
      by (unfold Rmean; cbn; lra).
    unfold Rvar. rewrite Hmean. cbn. lra.
Defined.

Section DomainValidator.

Local Open Scope R_scope.

Variable shapiro kstest_norm : list npfloat -> npfloat * npfloat.

Lemma domain_rho_default (domain_name : string) :
  domain_name <> "Sports" -> domain_name <> "Education" ->
  domain_name <> "Finance" ->
  domain_rho domain_name = (fdec 2 1 : npfloat).
Proof.
  intros Hs He Hf. unfold domain_rho.
  apply String.eqb_neq in Hs, He, Hf. rewrite Hs, He, Hf.
  assert (Heq : (fdec 20 2 : npfloat) = fdec 2 1).
  { cbn. unfold Ideal.dec. f_equal. cbn. lra. }
  rewrite Heq. destruct (String.eqb domain_name "Healthcare"); reflexivity.
Qed.

(** X12: for the domain "Healthcare", and for every domain other than
    "Sports", "Education" and "Finance", validate_domain_sef returns what
    validate_sef_framework returns (the same error, None, or the same
    report), with the domain, the expected range and the range check
    added to the report. *)
Theorem X12_domain_validator_agrees
    (df : gmap string (list (cell npfloat)))
    (domain_name class_col class_a class_b measurement_col : string)
    (expected_sef_range : npfloat * npfloat) :
  domain_name <> "Sports" -> domain_name <> "Education" ->
  domain_name <> "Finance" ->
  validate_domain_sef shapiro kstest_norm df domain_name class_col
    class_a class_b measurement_col expected_sef_range
  = match validate_sef_framework shapiro kstest_norm df class_col
            class_a class_b measurement_col with
    | Raise e => Raise e
    | Return None => Return None
    | Return (Some rep) =>
        Return (Some {| domain := domain_name;
                        report := rep;
                        expected_range := expected_sef_range;
                        within_expected :=
                          fle expected_sef_range.1 (sef rep)
                          && fle (sef rep) expected_sef_range.2 |})
    end.
Proof.
  intros Hs He Hf.
  unfold validate_domain_sef, validate_sef_framework.
  rewrite (domain_rho_default domain_name Hs He Hf).
  destruct expected_sef_range as [expected_min expected_max].
  destruct (class_measurements df class_col class_a measurement_col)
    as [class_a_data | e]; [|reflexivity].
  destruct (class_measurements df class_col class_b measurement_col)
    as [class_b_data | e]; [|reflexivity].
  cbn [mbind result_bind].
  destruct ((len class_a_data <? 10)%Z || (len class_b_data <? 10)%Z);
    [reflexivity|].
  destruct (float_values class_a_data) as [a | e]; [|reflexivity].
  destruct (float_values class_b_data) as [b | e]; reflexivity.
Qed.

End DomainValidator.

Lemma X12_witness :
  validate_domain_sef constant_test constant_test degenerate_frame
    "Healthcare" "group" "A" "B" "value" (Fin (5 / 4), Fin (31 / 20))
  = match validate_sef_framework constant_test constant_test
            degenerate_frame "group" "A" "B" "value" with
    | Raise e => Raise e
    | Return None => Return None
    | Return (Some rep) =>
        Return (Some {| domain := "Healthcare";
                        report := rep;
                        expected_range := (Fin (5 / 4), Fin (31 / 20));
                        within_expected :=
                          fle (Fin (5 / 4)) (sef rep)
                          && fle (sef rep) (Fin (31 / 20)) |})
    end.
Proof.
  apply (X12_domain_validator_agrees constant_test constant_test
           degenerate_frame "Healthcare" "group" "A" "B" "value"
           (Fin (5 / 4), Fin (31 / 20))); discriminate.
Defined.

Lemma X13_witness :
  let df : gmap string (list (cell npfloat)) :=
    {[ "win_rate" := [CNum (Fin 1); CNum (Fin 2)] ]} in
  df !! "team_type" = None /\
  validate_domain_sef constant_test constant_test df "Sports" "team_type"
    "Winning" "Losing" "win_rate" (Fin (109 / 100), Fin (131 / 100))
  = Raise (KeyError "team_type").
Proof.
  split; [reflexivity|].
  apply validate_domain_sef_missing_column. reflexivity.
Defined.

(** ** The scenario loop of analyze_mlperf_data *)

Section ScenarioLoop.

Context {F : Type} `{Float64 F}.
Variable shapiro kstest_norm : list F -> F * F.

Lemma select_nil_r {A : Type} (mask : list bool) : select mask (@nil A) = [].
Proof. destruct mask as [| [] mask]; reflexivity. Qed.

(** Selecting the rows of one class among the rows of the two classes
    gives the rows of that class. *)
Lemma select_prefilter_a (labels : list (cell F)) (a b : string)
    (column : list (cell F)) :
  let mask := mask_or (series_eq labels a) (series_eq labels b) in
  select (series_eq (select mask labels) a) (select mask column)
  = select (series_eq labels a) column.
Proof.
  cbn zeta. revert column.
  induction labels as [| c labels IH]; intros column; [reflexivity|].
  destruct column as [| x column].
  - rewrite !select_nil_r. reflexivity.
  - destruct c as [s | y]; cbn.
    + destruct (String.eqb s a) eqn:Ha; cbn.
      * rewrite Ha. cbn. f_equal. apply IH.
      * destruct (String.eqb s b) eqn:Hb; cbn; [rewrite Ha; cbn|]; apply IH.
    + apply IH.
Qed.

Lemma select_prefilter_b (labels : list (cell F)) (a b : string)
    (column : list (cell F)) :
  let mask := mask_or (series_eq labels a) (series_eq labels b) in
  select (series_eq (select mask labels) b) (select mask column)
  = select (series_eq labels b) column.
Proof.
  cbn zeta. revert column.
  induction labels as [| c labels IH]; intros column; [reflexivity|].
  destruct column as [| x column].
  - rewrite !select_nil_r. reflexivity.
  - destruct c as [s | y]; cbn.
    + destruct (String.eqb s b) eqn:Hb; cbn.
      * rewrite orb_true_r. cbn. rewrite Hb. cbn. f_equal. apply IH.
      * rewrite orb_false_r.
        destruct (String.eqb s a) eqn:Ha; cbn; [rewrite Hb; cbn|]; apply IH.
    + apply IH.
Qed.

Lemma class_measurements_getitem_mask (df : gmap string (list (cell F)))
    (mask : list bool) (class_col value measurement_col : string)
    (labels : list (cell F)) :
  df !! class_col = Some labels ->
  class_measurements (getitem_mask df mask) class_col value measurement_col
  = match df !! measurement_col with
    | Some column =>
        Return (dropna (select (series_eq (select mask labels) value)
                               (select mask column)))
    | None => Raise (KeyError measurement_col)
    end.
Proof.
  intros Hlabels. unfold class_measurements.
  rewrite (getitem_getitem_mask df mask class_col).
  unfold getitem. rewrite Hlabels. cbn [mbind result_bind].
  unfold getitem_mask. rewrite !lookup_fmap.
  destruct (df !! measurement_col); reflexivity.
Qed.

Lemma class_measurements_lookup (df : gmap string (list (cell F)))
    (class_col value measurement_col : string) (labels : list (cell F)) :
  df !! class_col = Some labels ->
  class_measurements df class_col value measurement_col
  = match df !! measurement_col with
    | Some column => Return (dropna (select (series_eq labels value) column))
    | None => Raise (KeyError measurement_col)
    end.
Proof.
  intros Hlabels. unfold class_measurements, getitem.
  rewrite Hlabels. cbn [mbind result_bind].
  unfold getitem_mask. rewrite lookup_fmap.
  destruct (df !! measurement_col); reflexivity.
Qed.

Lemma validate_sef_framework_prefilter (df : gmap string (list (cell F)))
    (class_col a b measurement_col : string) (labels : list (cell F)) :
  df !! class_col = Some labels ->
  validate_sef_framework shapiro kstest_norm
    (getitem_mask df (mask_or (series_eq labels a) (series_eq labels b)))
    class_col a b measurement_col
  = validate_sef_framework shapiro kstest_norm df
      class_col a b measurement_col.
Proof.
  intros Hlabels. unfold validate_sef_framework.
  rewrite !(class_measurements_getitem_mask df _ class_col _ measurement_col
              labels Hlabels).
  rewrite !(class_measurements_lookup df class_col _ measurement_col
              labels Hlabels).
  destruct (df !! measurement_col) as [column |]; [|reflexivity].
  pose proof (select_prefilter_a labels a b column) as Ha.
  pose proof (select_prefilter_b labels a b column) as Hb.
  cbn zeta in Ha, Hb. rewrite Ha, Hb. reflexivity.
Qed.

Lemma length_select_le {A : Type} (mask : list bool) (l : list A) :
  (length (select mask l) <= length (List.filter (fun b : bool => b) mask))%nat.
Proof.
  revert l. induction mask as [| m mask IH]; intros l; [cbn; lia|].
  destruct l as [| x l]; [destruct m; cbn; lia|].
  destruct m; cbn; [apply le_n_S|]; apply IH.
Qed.

Lemma length_dropna_le (s : list (cell F)) :
  (length (dropna s) <= length s)%nat.
Proof.
  unfold dropna. induction s as [| c s IH]; cbn; [lia|].
  destruct (negb (isna c)); cbn; lia.
Qed.

Lemma count_two_classes (labels : list (cell F)) (a b : string) :
  a <> b ->
  (length (List.filter (fun x : bool => x) (series_eq labels a))
   + length (List.filter (fun x : bool => x) (series_eq labels b))
   <= length (List.filter (fun x : bool => x)
                (mask_or (series_eq labels a) (series_eq labels b))))%nat.
Proof.
  intros Hab. unfold series_eq, mask_or.
  induction labels as [| c labels IH]; [cbn; lia|].
  destruct c as [s | y]; cbn; [|exact IH].
  destruct (String.eqb_spec s a) as [-> | Ha].
  - destruct (String.eqb_spec a b) as [? | _]; [contradiction|].
    cbn in *. lia.
  - destruct (String.eqb_spec s b); cbn in *; lia.
Qed.

Lemma len_masked_two_classes (labels : list (cell F)) (a b : string) :
  a <> b ->
  (len_masked (series_eq labels a) + len_masked (series_eq labels b)
   <= len_masked (mask_or (series_eq labels a) (series_eq labels b)))%Z.
Proof.
  intros Hab. pose proof (count_two_classes labels a b Hab).
  unfold len_masked, len. lia.
Qed.

(** X14: in the scenario loop, (1) the validator gives the same outcome
    on the rows selected for the two classes as on the whole frame, and
    (2) when the two labels differ, whenever the validator returns on the
    whole frame, the loop body stores exactly its report: the 20-row
    check never drops a scenario the validator accepts. *)
Theorem X14_scenario_selection (df : gmap string (list (cell F)))
    (results : gmap string sef_report) (sc : scenario)
    (labels : list (cell F)) :
  df !! class_col sc = Some labels ->
  validate_sef_framework shapiro kstest_norm
    (getitem_mask df (mask_or (series_eq labels (class_a sc))
                              (series_eq labels (class_b sc))))
    (class_col sc) (class_a sc) (class_b sc) (measurement_col sc)
  = validate_sef_framework shapiro kstest_norm df
      (class_col sc) (class_a sc) (class_b sc) (measurement_col sc)
  /\
  (class_a sc <> class_b sc ->
   forall r : option sef_report,
     validate_sef_framework shapiro kstest_norm df
       (class_col sc) (class_a sc) (class_b sc) (measurement_col sc)
     = Return r ->
     analyze_scenario shapiro kstest_norm df results sc
     = Return (match r with
               | Some report => <[name sc := report]> results
               | None => results
               end)).
Proof.
  intros Hlabels.
  pose proof (validate_sef_framework_prefilter df (class_col sc) (class_a sc)
                (class_b sc) (measurement_col sc) labels Hlabels) as Hpre.
  split; [exact Hpre|].
  intros Hab r Hr. unfold analyze_scenario, getitem.
  rewrite Hlabels. cbn [mbind result_bind].
  rewrite Hpre, Hr. cbn [mbind result_bind].
  destruct (len_masked _ <? 20)%Z eqn:Hgate; [|destruct r; reflexivity].
  destruct r as [report |]; [exfalso | reflexivity].
  apply Z.ltb_lt in Hgate.
  unfold validate_sef_framework in Hr.
  rewrite !(class_measurements_lookup df (class_col sc) _ (measurement_col sc)
              labels Hlabels) in Hr.
  destruct (df !! measurement_col sc) as [column |]; [|discriminate].
  cbn [mbind result_bind] in Hr.
  destruct ((len _ <? 10)%Z || (len _ <? 10)%Z) eqn:Hsmall in Hr;
    [discriminate|].
  apply orb_false_iff in Hsmall as [Hna Hnb].
  apply Z.ltb_ge in Hna. apply Z.ltb_ge in Hnb.
  pose proof (len_masked_two_classes labels (class_a sc) (class_b sc) Hab)
    as Hsum.
  pose proof (length_dropna_le
                (select (series_eq labels (class_a sc)) column)) as Hda.
  pose proof (length_dropna_le
                (select (series_eq labels (class_b sc)) column)) as Hdb.
  pose proof (length_select_le (series_eq labels (class_a sc)) column) as Hsa.
  pose proof (length_select_le (series_eq labels (class_b sc)) column) as Hsb.
  unfold len_masked, len in *. lia.
Qed.

(** X15: analyze_mlperf_data has no handler around its loop: on a frame
    without the column "hardware_type" of its first scenario it fails with
    that KeyError instead of going on to the other scenarios. *)
Theorem X15_analysis_stops_at_missing_column
    (df : gmap string (list (cell F))) :
  df !! "hardware_type" = None ->
  analyze_mlperf_data shapiro kstest_norm df
  = Raise (KeyError "hardware_type").
Proof.
  intros Hmissing. unfold analyze_mlperf_data, scenarios.
  cbn [foldl]. cbn [mbind result_bind].
  unfold analyze_scenario at 3. unfold getitem.
  cbn [class_col]. rewrite Hmissing. reflexivity.
Qed.

End ScenarioLoop.

Lemma X14_witness :
  let sc := {| name := "Group (A vs B)"; class_col := "group";
               class_a := "A"; class_b := "B"; measurement_col := "value" |} in
  let labels : list (cell npfloat) :=
    replicate 10 (CStr "A") ++ replicate 10 (CStr "B") in
  degenerate_frame !! class_col sc = Some labels /\
  validate_sef_framework constant_test constant_test
    (getitem_mask degenerate_frame
       (mask_or (series_eq labels (class_a sc)) (series_eq labels (class_b sc))))
    (class_col sc) (class_a sc) (class_b sc) (measurement_col sc)
  = validate_sef_framework constant_test constant_test degenerate_frame
      (class_col sc) (class_a sc) (class_b sc) (measurement_col sc).
Proof.
  intros sc labels.
  assert (Hlabels : degenerate_frame !! class_col sc = Some labels)
    by reflexivity.
  split; [exact Hlabels|].
  exact (proj1 (X14_scenario_selection constant_test constant_test
                  degenerate_frame ∅ sc labels Hlabels)).
Defined.

Lemma X15_witness :
  let df : gmap string (list (cell npfloat)) :=
    {[ "accuracy" := [CNum (Fin 1)] ]} in
  df !! "hardware_type" = None /\
  analyze_mlperf_data constant_test constant_test df
  = Raise (KeyError "hardware_type").
Proof.
  split; [reflexivity|].
  apply X15_analysis_stops_at_missing_column. reflexivity.
Defined.

(** ** apply_sef_to_cms_data.py *)

Section CmsGeneric.

Context {F : Type} `{Float64 F}.
Local Open Scope f64_scope.

Variable shapiro : list F -> F * F.
Variable kstest_fitted : list F -> F -> F -> F * F.
Variable normaltest : list F -> result (F * F).
Variable pearsonr : list F -> list F -> result (F * F).
Variable np_log : F -> F.

(** X16: whatever test_normality_and_log_transform returns is one of three
    things: the data as given (missing values included) with both flags
    false, when fewer than 3 values are present; the data without its
    missing values, not marked as log-transformed; or the logarithms of
    those values, marked as log-transformed, and then only when the data
    were not found normal and are all strictly positive. *)
Theorem X16_log_transform_outcomes (data series : list F)
    (is_normal log_transformed : bool) :
  Cms.test_normality_and_log_transform shapiro kstest_fitted normaltest
    np_log data
  = Return (series, is_normal, log_transformed) ->
  let clean_data := dropna_floats data in
  ((len clean_data < 3)%Z /\ series = data
   /\ is_normal = false /\ log_transformed = false)
  \/ ((3 <= len clean_data)%Z /\ series = clean_data
      /\ log_transformed = false)
  \/ ((3 <= len clean_data)%Z /\ series = map np_log clean_data
      /\ log_transformed = true /\ is_normal = false
      /\ forallb (fun x => x >? fZ 0) clean_data = true).
Proof.
  unfold Cms.test_normality_and_log_transform. cbn zeta.
  destruct (len (dropna_floats data) <? 3)%Z eqn:Hlen.
  - apply Z.ltb_lt in Hlen. intros [= <- <- <-]. left. auto.
  - apply Z.ltb_ge in Hlen.
    destruct (Cms.three_tests_normal shapiro kstest_fitted normaltest
                (dropna_floats data)) as [normal | e]; [|discriminate].
    cbn [mbind result_bind].
    destruct (negb normal && forallb _ (dropna_floats data)) eqn:Hlog.
    + apply andb_true_iff in Hlog as [Hnormal Hpositive].
      apply negb_true_iff in Hnormal. subst normal.
      destruct (Cms.three_tests_normal shapiro kstest_fitted normaltest
                  (map np_log (dropna_floats data))) as [log_normal | e];
        [|discriminate].
      cbn [mbind result_bind]. destruct log_normal; intros [= <- <- <-].
      * right. right. auto.
      * right. left. auto.
    + intros [= <- <- <-]. right. left. auto.
Qed.

End CmsGeneric.

Lemma X16_witness :
  let data := [Fin 1; NaN; Fin 2] in
  Cms.test_normality_and_log_transform constant_test fitted_constant_test
    refusing_test (fun x => x) data
  = Return (data, false, false) /\
  ((len (dropna_floats data) < 3)%Z /\ data = data
   /\ false = false /\ false = false
   \/ (3 <= len (dropna_floats data))%Z /\ data = dropna_floats data
      /\ false = false
   \/ (3 <= len (dropna_floats data))%Z
      /\ data = map (fun x => x) (dropna_floats data)
      /\ false = true /\ false = false
      /\ forallb (fun x => flt (fZ 0) x) (dropna_floats data) = true).
Proof.
  intros data.
  assert (Hrun : Cms.test_normality_and_log_transform constant_test
                   fitted_constant_test refusing_test (fun x => x) data
                 = Return (data, false, false))
    by reflexivity.
  split; [exact Hrun|].
  exact (X16_log_transform_outcomes constant_test fitted_constant_test
           refusing_test (fun x => x) data data false false Hrun).
Defined.

Section CmsIdeal.

Local Open Scope R_scope.

Variable shapiro : list npfloat -> npfloat * npfloat.
Variable kstest_fitted : list npfloat -> npfloat -> npfloat -> npfloat * npfloat.
Variable normaltest : list npfloat -> result (npfloat * npfloat).
Variable pearsonr : list npfloat -> list npfloat -> result (npfloat * npfloat).
Variable np_log : npfloat -> npfloat.

(** X17: with a single observation per hospital, as when a measure has
    one row each, calculate_sef_parameters runs no test and no
    correlation, returns kappa = nan (the standard deviations are nan)
    and rho = 0, and calculate_sef_improvement turns that into
    SEF = +inf. *)
Theorem X17_single_observation (m c : R) :
  exists p : Cms.parameters,
    Cms.calculate_sef_parameters shapiro kstest_fitted normaltest pearsonr
      np_log [Fin m] [Fin c]
    = Return p /\
    Cms.delta p = Fin (Rabs (m - c)) /\
    Cms.mayo_std p = NaN /\ Cms.cleveland_std p = NaN /\
    Cms.kappa p = NaN /\ Cms.rho p = Fin 0 /\
    Cms.sef (Cms.calculate_sef_improvement p) = PInf.
Proof.
  eexists. split; [reflexivity|].
  cbn [Cms.delta Cms.mayo_std Cms.cleveland_std Cms.kappa Cms.rho].
  assert (Hstd : forall x : R, std [Fin x] = NaN) by reflexivity.
  assert (Hmean : forall x : R, mean [Fin x] = Fin x).
  { intros x. change [Fin x] with (map Fin [x]).
    rewrite mean_Fin by discriminate. f_equal. unfold Rmean. cbn. field. }
  rewrite !Hstd, !Hmean.
  repeat split.
Qed.

(** X18: calculate_sef_parameters never divides by a zero standard
    deviation of the first hospital: whenever it returns mayo_std = 0,
    its kappa is +inf, also when the other standard deviation is 0. *)
Theorem X18_kappa_guard (mayo_data cleveland_data : list npfloat)
    (p : Cms.parameters) :
  Cms.calculate_sef_parameters shapiro kstest_fitted normaltest pearsonr
    np_log mayo_data cleveland_data
  = Return p ->
  Cms.mayo_std p = Fin 0 -> Cms.kappa p = PInf.
Proof.
  unfold Cms.calculate_sef_parameters.
  destruct (Cms.test_normality_and_log_transform shapiro kstest_fitted
              normaltest np_log mayo_data)
    as [[[mayo_clean mayo_normal] mayo_log] | e]; [|discriminate].
  destruct (Cms.test_normality_and_log_transform shapiro kstest_fitted
              normaltest np_log cleveland_data)
    as [[[cleveland_clean cleveland_normal] cleveland_log] | e];
    [|discriminate].
  cbn [mbind result_bind]. cbn zeta.
  destruct ((len mayo_clean >? 1)%Z && (len cleveland_clean >? 1)%Z).
  - destruct (pearsonr mayo_clean cleveland_clean) as [[correlation pv] | e];
      [|discriminate].
    cbn [mbind result_bind]. intros [= <-]. cbn [Cms.mayo_std Cms.kappa].
    intros ->. cbn. rewrite Reqb_true by reflexivity. reflexivity.
  - cbn [mbind result_bind]. intros [= <-]. cbn [Cms.mayo_std Cms.kappa].
    intros ->. cbn. rewrite Reqb_true by reflexivity. reflexivity.
Qed.

Lemma div_zero_square (x : npfloat) :
  Ideal.lt (Fin 0) (Ideal.div (Fin (0 * 0)) x) = false.
Proof.
  destruct x as [y | | |]; cbn; try (apply Rltb_false; lra).
  - unfold Ideal.Reqb. destruct (Req_dec_T y 0) as [Hy | Hy].
    + unfold Ideal.signed_inf. rewrite !Rltb_false by lra. reflexivity.
    + cbn. apply Rltb_false. unfold Rdiv. lra.
  - reflexivity.
Qed.

(** X19: when the two means coincide (delta = 0), calculate_sef_improvement
    reports SEF = +inf, whatever the standard deviations and the
    correlation are. *)
Theorem X19_equal_means_give_infinite_sef (p : Cms.parameters) :
  Cms.delta p = Fin 0 ->
  Cms.sef (Cms.calculate_sef_improvement p) = PInf.
Proof.
  intros Hdelta. unfold Cms.calculate_sef_improvement. rewrite Hdelta.
  cbn [Cms.sef]. cbn [fmul fdiv fadd flt fZ finf npfloat_Float64].
  cbn [Ideal.mul]. rewrite div_zero_square. reflexivity.
Qed.

Lemma X19_witness :
  Cms.delta (cms_params 0 1 4 (1 / 2) 3 3 false false) = Fin 0 /\
  Cms.sef (Cms.calculate_sef_improvement
             (cms_params 0 1 4 (1 / 2) 3 3 false false)) = PInf.
Proof.
  split; [reflexivity|].
  apply X19_equal_means_give_infinite_sef. reflexivity.
Defined.

(** X20: for delta <> 0 and finite standard deviations that are not both
    zero, the SEF of calculate_sef_improvement does not depend on delta:
    it is (var_A + var_B) / relative_var when the variance of the
    difference relative_var = var_A + var_B - 2 rho std_A std_B is
    positive, and +inf otherwise. *)
Theorem X20_snr_ratio_value
    (delta var_A var_B rho mean_A mean_B : R) (log_A log_B : bool) :
  delta <> 0 -> 0 <= var_A -> 0 <= var_B -> 0 < var_A + var_B ->
  let relative_var :=
    var_A + var_B - 2 * rho * sqrt var_A * sqrt var_B in
  Cms.sef (Cms.calculate_sef_improvement
             (cms_params delta var_A var_B rho mean_A mean_B log_A log_B))
  = if Ideal.Rltb 0 relative_var
    then Fin ((var_A + var_B) / relative_var)
    else PInf.
Proof.
  intros Hdelta HA HB Hsum relative_var.
  pose proof (sqrt_sqrt var_A HA) as HsA.
  pose proof (sqrt_sqrt var_B HB) as HsB.
  assert (Hdd : 0 < delta * delta) by nra.
  unfold Cms.calculate_sef_improvement, cms_params.
  cbn [Cms.sef Cms.delta Cms.rho Cms.mayo_std Cms.cleveland_std].
  cbn [fadd fsub fmul fdiv flt fZ finf npfloat_Float64].
  cbn [Ideal.add Ideal.sub Ideal.mul Ideal.neg Ideal.lt].
  rewrite HsA, HsB.
  replace (var_A + var_B + - (2 * rho * sqrt var_A * sqrt var_B))
    with relative_var by (unfold relative_var; ring).
  rewrite (div_Fin (delta * delta) (var_A + var_B)) by lra.
  assert (Hind : 0 < delta * delta / (var_A + var_B))
    by (apply Rdiv_lt_0_compat; lra).
  destruct (Rlt_dec 0 relative_var) as [Hpos | Hneg].
  - rewrite (Rltb_true 0 relative_var) by assumption.
    rewrite div_Fin by lra. cbn [Ideal.lt].
    rewrite Rltb_true by assumption. rewrite div_Fin by lra.
    f_equal. field. repeat split; lra.
  - rewrite (Rltb_false 0 relative_var) by lra.
    cbn [Ideal.lt]. rewrite Rltb_true by assumption.
    cbn [Ideal.div]. rewrite Rltb_false by lra. reflexivity.
Qed.

Lemma X20_witness :
  (3 <> 0 /\ 0 <= 1 /\ 0 <= 4 /\ 0 < 1 + 4) /\
  Cms.sef (Cms.calculate_sef_improvement
             (cms_params 3 1 4 (1 / 2) 0 0 false false))
  = if Ideal.Rltb 0 (1 + 4 - 2 * (1 / 2) * sqrt 1 * sqrt 4)
    then Fin ((1 + 4) / (1 + 4 - 2 * (1 / 2) * sqrt 1 * sqrt 4))
    else PInf.
Proof.
  split; [lra|].
  apply (X20_snr_ratio_value 3 1 4 (1 / 2) 0 0 false false); lra.
Defined.

End CmsIdeal.

Lemma zero_spread_run :
  exists p : Cms.parameters,
    Cms.calculate_sef_parameters constant_test fitted_constant_test
      refusing_test zero_correlation (fun x => x)
      [Fin 5; Fin 5] [Fin 3; Fin 3]
    = Return p /\ Cms.mayo_std p = Fin 0.
Proof.
  eexists. split; [reflexivity|]. cbn [Cms.mayo_std].
  unfold std. change [Fin 5; Fin 5] with (map Fin [5; 5]%R).
  rewrite var_Fin by (cbn; lia).
  assert (Hvar : Rvar [5; 5]%R = 0%R).
  { assert (Hmean : Rmean [5; 5]%R = 5%R) by (unfold Rmean; cbn; lra).
    unfold Rvar. rewrite Hmean. cbn. field. }
  rewrite Hvar. cbn [fsqrt npfloat_Float64].
  rewrite sqrt_Fin by lra. rewrite sqrt_0. reflexivity.
Qed.

Lemma X18_witness :
  exists p : Cms.parameters,
    Cms.calculate_sef_parameters constant_test fitted_constant_test
      refusing_test zero_correlation (fun x => x)
      [Fin 5; Fin 5] [Fin 3; Fin 3]
    = Return p /\ Cms.mayo_std p = Fin 0 /\ Cms.kappa p = PInf.
Proof.
  destruct zero_spread_run as (p & Hrun & Hstd).
  exists p. split; [exact Hrun|]. split; [exact Hstd|].
  exact (X18_kappa_guard constant_test fitted_constant_test refusing_test
           zero_correlation (fun x => x) _ _ p Hrun Hstd).
Defined.

(** ** validate_clinical_data.py *)

Section AssessmentGeneric.

Context {F : Type} `{Float64 F}.
Variable shapiro normaltest jarque_bera : list F -> F * F.
Variable median : list F -> F.
Variable format_0f : F -> string.

Lemma warnings_differ :
  some_deviation <> appears_suitable /\
  significant_deviation <> appears_suitable /\
  variance_instability <> appears_suitable /\
  insufficient_points <> appears_suitable /\
  limited_binary <> appears_suitable /\
  limited_options <> appears_suitable.
Proof.
  repeat split; apply String.eqb_neq; vm_compute; reflexivity.
Qed.

(** X21: generate_overall_assessment gives a score between 0 and 10 and
    never an empty list of recommendations; the score is 10 exactly when
    the only recommendation is "Data appears suitable for competitive
    measurement framework". *)
Theorem X21_overall_assessment_score
    (normality_results : gmap string test_result)
    (va : variance_analysis) (ba : binary_analysis) :
  let r := generate_overall_assessment normality_results va ba in
  (0 <= quality_score r <= 10)%Z /\
  recommendations r <> [] /\
  (quality_score r = 10%Z <->
   recommendations r = [appears_suitable]).
Proof.
  intros r. unfold r, generate_overall_assessment. clear r.
  destruct warnings_differ as (W1 & W2 & W3 & W4 & W5 & W6).
  destruct (normal_tests_of normality_results >=? 2)%Z;
    [|destruct (normal_tests_of normality_results >=? 1)%Z];
    destruct (variance_stable va); destruct (sufficient_data va);
    destruct (can_create_binary ba);
    destruct (len (suggested_outcomes ba) >=? 2)%Z;
    cbn [fst snd app quality_score recommendations].
  all: split; [lia|]; split; [discriminate|].
  all: split; intros Heq; try reflexivity; exfalso; try lia; congruence.
Qed.

Lemma geb_false (n m : Z) : (n < m)%Z -> (n >=? m)%Z = false.
Proof. intros Hlt. rewrite Z.geb_leb. apply Z.leb_gt. exact Hlt. Qed.

Lemma normal_tests_of_empty : normal_tests_of (∅ : gmap string test_result) = 0%Z.
Proof. unfold normal_tests_of. rewrite map_to_list_empty. reflexivity. Qed.

Lemma normal_tests_of_singleton (key : string) (e : test_result) :
  (normal_tests_of ({[ key := e ]} : gmap string test_result) <= 1)%Z.
Proof.
  unfold normal_tests_of, len. rewrite map_to_list_singleton.
  cbn [List.filter snd]. destruct (flt _ _); cbn; lia.
Qed.

Lemma test_normality_below_8 (data : list F) :
  (len data < 8)%Z ->
  (normal_tests_of (test_normality shapiro normaltest jarque_bera data).2
   <= 1)%Z.
Proof.
  intros Hlen. unfold test_normality, guarded_test.
  replace (len data >=? 8)%Z with false by (symmetry; apply geb_false; lia).
  destruct ((len data >=? 3)%Z && (len data <=? 5000)%Z); cbn [snd].
  - rewrite insert_empty. apply normal_tests_of_singleton.
  - rewrite normal_tests_of_empty. lia.
Qed.

Lemma test_normality_below_3 (data : list F) :
  (len data < 3)%Z ->
  (test_normality shapiro normaltest jarque_bera data).2 = ∅.
Proof.
  intros Hlen. unfold test_normality, guarded_test.
  replace (len data >=? 8)%Z with false by (symmetry; apply geb_false; lia).
  replace (len data >=? 3)%Z with false by (symmetry; apply geb_false; lia).
  reflexivity.
Qed.

(** X22: the assessment of validate_clinical_data counts a test that was
    skipped as a test that did not find normality.  With fewer than 8
    observations the score stays below 10 and a normality warning is
    always issued; with fewer than 3 no test ran at all, yet the data are
    reported as deviating significantly from normality, and the score is
    at most 6. *)
Theorem X22_skipped_tests_lower_the_score (data : list F)
    (ba : binary_analysis) :
  let r := generate_overall_assessment
             (test_normality shapiro normaltest jarque_bera data).2
             (analyze_variance data) ba in
  ((len data < 8)%Z ->
   (quality_score r <= 9)%Z /\
   (some_deviation ∈ recommendations r \/
    significant_deviation ∈ recommendations r)) /\
  ((len data < 3)%Z ->
   (quality_score r <= 6)%Z /\
   significant_deviation ∈ recommendations r /\
   insufficient_points ∈ recommendations r).
Proof.
  cbn zeta. split.
  - intros Hlen. pose proof (test_normality_below_8 data Hlen) as Htests.
    unfold generate_overall_assessment. cbn zeta.
    replace (normal_tests_of _ >=? 2)%Z with false
      by (symmetry; apply geb_false; lia).
    destruct (normal_tests_of _ >=? 1)%Z;
      destruct (variance_stable (analyze_variance data));
      destruct (sufficient_data (analyze_variance data));
      destruct (can_create_binary ba);
      destruct (len (suggested_outcomes ba) >=? 2)%Z;
      cbn; (split; [lia|]);
      first [left; apply list_elem_of_here | right; apply list_elem_of_here].
  - intros Hlen. unfold generate_overall_assessment. cbn zeta.
    rewrite (test_normality_below_3 data Hlen), normal_tests_of_empty.
    assert (Hsuff : sufficient_data (analyze_variance data) = false).
    { cbn. apply geb_false. lia. }
    rewrite Hsuff. cbn [Z.geb Z.compare].
    destruct (variance_stable (analyze_variance data));
      destruct (can_create_binary ba);
      destruct (len (suggested_outcomes ba) >=? 2)%Z;
      cbn; (split; [lia|]); split;
      repeat first [apply list_elem_of_here | apply list_elem_of_further].
Qed.

Lemma score_without_binary_outcomes
    (normality_results : gmap string test_result)
    (va : variance_analysis) (ba : binary_analysis) :
  can_create_binary ba = false ->
  (length (suggested_outcomes ba) <= 1)%nat ->
  (quality_score (generate_overall_assessment normality_results va ba) <= 6)%Z.
Proof.
  intros Hcan Hfew. unfold generate_overall_assessment. rewrite Hcan.
  replace (len (suggested_outcomes ba) >=? 2)%Z with false
    by (symmetry; apply geb_false; unfold len; lia).
  destruct (normal_tests_of normality_results >=? 2)%Z;
    [|destruct (normal_tests_of normality_results >=? 1)%Z];
    destruct (variance_stable va); destruct (sufficient_data va);
    cbn; lia.
Qed.

(** X23: assess_binary_prediction_suitability fails with the KeyError of
    the first of the columns "StudyType" and "Condition" that is missing;
    otherwise it returns the distinct values of both columns, at most
    three suggested outcomes, and at most one when it finds that no
    binary outcome can be created, so that the overall assessment then
    scores at most 6. *)
Theorem X23_binary_analysis (df : gmap string (list (cell F)))
    (enrollment_data : list F) :
  match df !! "StudyType", df !! "Condition" with
  | None, _ =>
      assess_binary_prediction_suitability median format_0f df enrollment_data
      = Raise (KeyError "StudyType")
  | Some _, None =>
      assess_binary_prediction_suitability median format_0f df enrollment_data
      = Raise (KeyError "Condition")
  | Some study_type_column, Some condition_column =>
      exists ba : binary_analysis,
        assess_binary_prediction_suitability median format_0f df
          enrollment_data
        = Return ba /\
        study_types ba = unique study_type_column /\
        conditions ba = unique condition_column /\
        (length (suggested_outcomes ba) <= 3)%nat /\
        (can_create_binary ba = false ->
         (length (suggested_outcomes ba) <= 1)%nat /\
         forall (normality_results : gmap string test_result)
                (va : variance_analysis),
           (quality_score
              (generate_overall_assessment normality_results va ba) <= 6)%Z)
  end.
Proof.
  unfold assess_binary_prediction_suitability, getitem.
  destruct (df !! "StudyType") as [study_type_column |]; [|reflexivity].
  destruct (df !! "Condition") as [condition_column |]; [|reflexivity].
  cbn [mbind result_bind]. eexists. split; [reflexivity|].
  cbn [study_types conditions suggested_outcomes can_create_binary].
  split; [reflexivity|]. split; [reflexivity|].
  set (o_enrollment := String.append _ _). clearbody o_enrollment.
  assert (Hscore : forall ba : binary_analysis,
            (length (suggested_outcomes ba) <= 1)%nat ->
            can_create_binary ba = false ->
            (length (suggested_outcomes ba) <= 1)%nat /\
            forall (normality_results : gmap string test_result)
                   (va : variance_analysis),
              (quality_score
                 (generate_overall_assessment normality_results va ba) <= 6)%Z).
  { intros ba Hfew Hcan. split; [exact Hfew|]. intros normality_results va.
    apply score_without_binary_outcomes; assumption. }
  destruct (len (unique study_type_column) >=? 2)%Z;
    destruct (len (unique condition_column) >=? 2)%Z;
    destruct (len enrollment_data >=? 4)%Z;
    cbn [orb app length];
    (split; [lia|]);
    first [ discriminate
          | match goal with
            | |- _ -> _ /\ (forall nr va,
                   (quality_score (generate_overall_assessment nr va ?b) <= _)%Z) =>
                apply (Hscore b); cbn; lia
            end ].
Qed.

End AssessmentGeneric.

Section VarianceIdeal.

Local Open Scope R_scope.

(** X24: analyze_variance on at least two finite values: with a negative
    mean the variance is always called stable, with a zero mean the
    coefficient of variation is +inf and the variance is never called
    stable, and with a positive mean it is called stable exactly when the
    standard deviation is below the mean. *)
Theorem X24_variance_stability (l : list R) :
  (2 <= length l)%nat ->
  let r := analyze_variance (map Fin l) in
  sample_variance r = Fin (Rvar l) /\
  (Rmean l < 0 -> variance_stable r = true) /\
  (Rmean l = 0 -> cv r = PInf /\ variance_stable r = false) /\
  (0 < Rmean l -> (variance_stable r = true <-> sqrt (Rvar l) < Rmean l)).
Proof.
  intros Hl. cbn zeta. unfold analyze_variance.
  cbn [sample_variance cv variance_stable]. unfold std.
  rewrite var_Fin by assumption.
  rewrite mean_Fin by (intros ->; cbn in Hl; lia).
  pose proof (Rvar_nonneg l Hl) as Hvar.
  pose proof (sqrt_pos (Rvar l)) as Hsd.
  cbn [fsqrt fdiv flt feq fZ finf npfloat_Float64].
  rewrite sqrt_Fin by assumption. cbn [Ideal.eq].
  split; [reflexivity|]. split; [|split].
  - intros Hneg. rewrite Reqb_false by lra. cbn [negb].
    rewrite div_Fin by lra. cbn [Ideal.lt]. apply Rltb_true.
    assert (Hq : sqrt (Rvar l) / Rmean l <= 0).
    { unfold Rdiv. replace 0 with (sqrt (Rvar l) * 0) by ring.
      apply Rmult_le_compat_l; [assumption|].
      apply Rlt_le, Rinv_lt_0_compat. assumption. }
    lra.
  - intros Hzero. rewrite Reqb_true by assumption. cbn [negb].
    split; reflexivity.
  - intros Hpos. rewrite Reqb_false by lra. cbn [negb].
    rewrite div_Fin by lra. cbn [Ideal.lt]. unfold Ideal.Rltb.
    destruct (Rlt_dec (sqrt (Rvar l) / Rmean l) 1) as [Hlt | Hge].
    + split; [intros _ | reflexivity].
      apply (Rmult_lt_compat_r (Rmean l)) in Hlt; [|assumption].
      replace (sqrt (Rvar l) / Rmean l * Rmean l) with (sqrt (Rvar l)) in Hlt
        by (field; lra).
      lra.
    + split; [discriminate|]. intros Hlt. exfalso. apply Hge.
      apply (Rmult_lt_reg_r (Rmean l)); [assumption|].
      replace (sqrt (Rvar l) / Rmean l * Rmean l) with (sqrt (Rvar l))
        by (field; lra).
      lra.
Qed.

Lemma X24_witness :
  (2 <= length [-3; 1]%R)%nat /\
  variance_stable (analyze_variance (map Fin [-3; 1]%R)) = true.
Proof.
  split; [cbn; lia|].
  refine (proj1 (proj2 (X24_variance_stability [-3; 1]%R _)) _);
    [cbn; lia | unfold Rmean; cbn; lra].
Defined.

End VarianceIdeal.

(** * The same runs in binary64

    The concrete inputs used above, evaluated with the binary64 instance
    of the interface. *)

Module Binary64Runs.

Import Binary64Inputs.
Local Open Scope f64_scope.

(** The concrete scenario: kappa = 40.0, 3.478 < delta < 3.479, and the
    SEF at rho = 0 is 1.0. *)
Example scenario_binary64 :
  let p := estimate_parameters (floats [10; 12; 14; 16; 18]%Z)
                               (floats [5; 25; 45]%Z) in
  mean_a p = fZ 14 /\ var_a p = fZ 10 /\
  mean_b p = fZ 25 /\ var_b p = fZ 400 /\
  est_kappa p = fZ 40 /\
  (fdec 3478 3 <? est_delta p) = true /\
  (est_delta p <? fdec 3479 3) = true /\
  calculate_sef (est_kappa p) (fZ 0) = fZ 1.
Proof. vm_compute. repeat split. Qed.

(** A negative variance ratio gives [nan], a zero one gives 1.0. *)
Example nonpositive_kappa_binary64 :
  fisnan (calculate_sef (fZ (-1) : PrimFloat.float) (fdec 2 1)) = true /\
  calculate_sef (fZ 0 : PrimFloat.float) (fdec 2 1) = fZ 1.
Proof. vm_compute. split; reflexivity. Qed.

(** No spread in group A: the report has kappa = delta = inf and a [nan]
    SEF. *)
Example degenerate_binary64 :
  match validate_sef_framework constant_test64 constant_test64 degenerate_frame64
          "group" "A" "B" "value" with
  | Return (Some r) =>
      kappa r = finf /\ delta r = finf /\ fisnan (sef r) = true
  | _ => False
  end.
Proof. vm_compute. repeat split. Qed.

(** The estimator's delta is unsigned. *)
Example unsigned_delta_binary64 :
  est_delta (estimate_parameters
               (floats [3; -3; 3; -3; 0; 0; 0; 0; 0; 0]%Z)
               (floats [7; 1; 7; 1; 4; 4; 4; 4; 4; 4]%Z))
  = fZ 2.
Proof. vm_compute. reflexivity. Qed.

End Binary64Runs.

(** Further runs in binary64. *)
Module Binary64RunsMore.

Import Binary64Inputs Binary64Stubs.
Local Open Scope f64_scope.

(** Exchanging the groups, and equal variances. *)
Example exchange_binary64 :
  calculate_sef (fdec 25 2 : PrimFloat.float) (fdec 5 1)
  = calculate_sef (fZ 4) (fdec 5 1) /\
  calculate_sef (fZ 1 : PrimFloat.float) (fdec 5 1) = fZ 2.
Proof. vm_compute. split; reflexivity. Qed.

(** One observation per hospital: the SEF is +inf. *)
Example single_observation_binary64 :
  match Cms.calculate_sef_parameters constant_test64 fitted_constant_test64
          refusing_test64 zero_correlation64 (fun x => x)
          (floats [3]%Z) (floats [5]%Z) with
  | Return p =>
      fisnan (Cms.kappa p) = true /\ Cms.rho p = fZ 0 /\
      Cms.delta p = fZ 2 /\
      Cms.sef (Cms.calculate_sef_improvement p) = finf
  | Raise _ => False
  end.
Proof. vm_compute. repeat split. Qed.

(** The two formulations are not close in binary64 when [delta ** 2]
    leaves the range of the format: with standard deviations 1 and 2 and
    rho = 0.5, where the closed form is 1.6666666666666667,
    calculate_sef_improvement returns [nan] for delta = 2^600 (the square
    overflows) and +inf for delta = 2^-600 (the square underflows to 0). *)
Example square_out_of_range_binary64 :
  let params (delta : PrimFloat.float) : Cms.parameters :=
    {| Cms.delta := delta; Cms.kappa := fZ 4; Cms.rho := fdec 5 1;
       Cms.mayo_mean := fZ 0; Cms.mayo_std := fZ 1;
       Cms.cleveland_mean := delta; Cms.cleveland_std := fZ 2;
       Cms.mayo_log := false; Cms.cleveland_log := false |} in
  fisnan (Cms.sef (Cms.calculate_sef_improvement (params (fZ (2 ^ 600)))))
    = true /\
  Cms.sef (Cms.calculate_sef_improvement (params (fZ 1 / fZ (2 ^ 600))))
    = finf.
Proof. vm_compute. split; reflexivity. Qed.

(** Equal means: the SEF is +inf. *)
Example equal_means_binary64 :
  Cms.sef (Cms.calculate_sef_improvement
             {| Cms.delta := fZ 0 : PrimFloat.float; Cms.kappa := fZ 4;
                Cms.rho := fdec 5 1; Cms.mayo_mean := fZ 3;
                Cms.mayo_std := fZ 1; Cms.cleveland_mean := fZ 3;
                Cms.cleveland_std := fZ 2; Cms.mayo_log := false;
                Cms.cleveland_log := false |})
  = finf.
Proof. vm_compute. reflexivity. Qed.

(** A negative mean is always called stable. *)
Example negative_mean_binary64 :
  variance_stable (analyze_variance (floats [-3; 1]%Z)) = true.
Proof. vm_compute. reflexivity. Qed.

End Binary64RunsMore.
